(** * PlotAlc: the learning-curve plotter of [autodl/utils/plot_alc.py]

    A shallow embedding of the class [PlotAlc] and of its method
    [plot_learning_curve], with the properties of the area under the
    learning curve (ALC), of the validation errors and of the chart state.

    Numbers.  A Python float is taken as the real number it stands for,
    so the comparisons [<=] and [<] of the source are the decidable
    comparisons of [R].  The sum and the difference the method computes
    are the rounded ones of the interpreter ([float_add], [float_sub]).
    NaN and the infinities are outside this model.

    State.  The method works on three stores: the plotter instance
    ([self]), matplotlib's global pyplot state (the figures and the
    current figure) and the logger.  They are threaded explicitly through
    a small state-and-exception monad: an exception leaves the state as it
    was when it was raised, as in Python. *)

From Stdlib Require Import Reals Lra Lia ZArith List Bool String.
From stdpp Require Import base option list gmap strings.

Open Scope string_scope.
Open Scope list_scope.
Open Scope R_scope.

(** ** Python values, exceptions *)

(** The text ["{}: ALC={:.4f}".format(model_name, alc)] (with a model
    name) or ["ALC={:.4f}".format(alc)] (without), kept symbolic. *)
Inductive alc_label : Type :=
| AlcLabel (model_name : option string) (alc : R).

(** Values stored in the keyword-argument dictionary [self.kwargs]. *)
Inductive pyval : Type :=
| PyNone
| PyInt (z : Z)
| PyFloat (r : R)
| PyStr (s : string)
| PyLabel (l : alc_label).

(** The exceptions [plot_learning_curve] can raise.  The first four are
    the [ValueError]s of the source, told apart by their message. *)
Inductive exn : Type :=
| LengthMismatch (n_timestamps n_scores : nat)
| NonMonotonicTimestamps (t_i t_j : R) (i j : nat)
| TimestampBeforeStart (t : R) (i : nat) (start_time : R)
| InvalidMethod
| NameError (variable : string)
| IndexError
| TypeErrorMultipleValues (keyword : string)
| MatplotlibError (message : string).

Inductive result (A : Type) : Type :=
| Ok (a : A)
| Raise (e : exn).
Arguments Ok {A} a.
Arguments Raise {A} e.

(** ** Comparisons and list helpers *)

Definition Rleb (x y : R) : bool := if Rle_dec x y then true else false.
Definition Rltb (x y : R) : bool := if Rlt_dec x y then true else false.

(** [l[i]] for an index in range. *)
Definition item (l : list R) (i : nat) : R := nth i l 0.

(** [l[-1]] of a list known to be non-empty. *)
Definition item_last (l : list R) : R := List.last l 0.

(** [l[:-1]] and [l[-2:]]. *)
Definition but_last (l : list R) : list R := firstn (length l - 1) l.
Definition last_two (l : list R) : list R := skipn (length l - 2) l.

(** [int(x)]: truncation toward zero. *)
Definition py_int (x : R) : Z :=
  if Rle_dec 0 x then Int_part x else (- Int_part (- x))%Z.

(** [list(range(start, stop, step))] for a positive step. *)
Definition py_range (start stop step : Z) : list Z :=
  List.map (fun k => (start + step * Z.of_nat k)%Z)
           (seq 0 (Z.to_nat ((stop - start + step - 1) / step))).

(** A [for i in range(n)] loop whose body may raise. *)
Fixpoint for_range (indices : list nat) (body : nat -> result unit)
  : result unit :=
  match indices with
  | [] => Ok tt
  | i :: rest =>
      match body i with
      | Ok _ => for_range rest body
      | Raise e => Raise e
      end
  end.

(** ** [check_conditions] (lines 57-70) *)

(** The body of the loop at index [i]: first the order of the pair
    [(i, i+1)], then the start time at [i]. *)
Definition check_at (timestamps : list R) (start_time : R) (le i : nat)
  : result unit :=
  if (i <? le - 1)%nat
     && negb (Rleb (item timestamps i) (item timestamps (i + 1)))
  then Raise (NonMonotonicTimestamps (item timestamps i)
                (item timestamps (i + 1)) i (i + 1))
  else if Rltb (item timestamps i) start_time
  then Raise (TimestampBeforeStart (item timestamps i) i start_time)
  else Ok tt.

Definition check_conditions (timestamps scores : list R) (start_time : R)
  : result unit :=
  let le := length timestamps in
  if negb (le =? length scores)%nat
  then Raise (LengthMismatch le (length scores))
  else for_range (seq 0 le) (check_at timestamps start_time le).

(** ** Chart state: a model of the pyplot calls the method makes *)

(** The x-axis label: the default one carries [int(time_budget)] and
    [int(t0)], the one of a custom transform is generic. *)
Inductive xlabel_text : Type :=
| XlabelDefault (T t0 : Z)
| XlabelGeneric.

(** What is done to an axes object, in order.  The text drawn by
    [ax.text] is ["{:.4f}".format(shown)]. *)
Inductive ax_op : Type :=
| SetTitle (task_name : option string)
| SetXlabel (l : xlabel_text)
| SetXlim (left right : R)
| SetYlabel (s : string)
| SetYlim (bottom top : R)
| Grid (b : bool)
| SetXticks (ticks : list R)
| SetXticklabels (labels : list Z)
| Plot (X Y : list R) (drawstyle : option string) (kw : gmap string pyval)
| FillBetween (X Y : list R) (color : string) (step : option string)
| Text (x y shown : R)
| Legend.

(** An axes object is the list of the calls made on it; a figure is the
    list [fig.axes]; pyplot keeps every figure (a figure is referred to by
    its position) and the current one. *)
Record pyplot : Type := Pyplot {
  figures : list (list (list ax_op));
  current : option nat
}.

(** The instance attributes set by [__init__] (lines 36-50). *)
Record PlotAlc : Type := Build_PlotAlc {
  method : string;
  transform : option (R -> R);
  task_name : option string;
  area_color : string;
  fill_area : bool;
  model_name : option string;
  clear_figure : bool;
  show_final_score : bool;
  show_title : bool;
  kwargs : gmap string pyval;
  cur_frame : nat;
  fig : option nat;
  ax : option (nat * nat)
}.

(** The stores a call works on: the instance, pyplot and the logger (the
    index named by each warning, oldest first). *)
Record state : Type := State {
  self : PlotAlc;
  plt : pyplot;
  logger : list nat
}.

Definition with_kwargs (kw : gmap string pyval) (p : PlotAlc) : PlotAlc :=
  Build_PlotAlc (method p) (transform p) (task_name p) (area_color p)
    (fill_area p) (model_name p) (clear_figure p) (show_final_score p)
    (show_title p) kw (cur_frame p) (fig p) (ax p).

Definition with_fig_ax (f : option nat) (a : option (nat * nat))
  (p : PlotAlc) : PlotAlc :=
  Build_PlotAlc (method p) (transform p) (task_name p) (area_color p)
    (fill_area p) (model_name p) (clear_figure p) (show_final_score p)
    (show_title p) (kwargs p) (cur_frame p) f a.

(** ** The state-and-exception monad *)

Definition M (A : Type) : Type := state -> result A * state.

Definition ret {A} (a : A) : M A := fun s => (Ok a, s).

Definition raise {A} (e : exn) : M A := fun s => (Raise e, s).

Definition bind {A B} (m : M A) (k : A -> M B) : M B :=
  fun s =>
    match m s with
    | (Ok a, s') => k a s'
    | (Raise e, s') => (Raise e, s')
    end.

Definition lift {A} (r : result A) : M A := fun s => (r, s).

Notation "x <- c1 ;; c2" := (bind c1 (fun x => c2))
  (at level 100, c1 at next level, right associativity).

Definition when (b : bool) (m : M unit) : M unit := if b then m else ret tt.

Definition get_self : M PlotAlc := fun s => (Ok (self s), s).

Definition get_kwargs : M (gmap string pyval) :=
  fun s => (Ok (kwargs (self s)), s).

Definition put_kwargs (kw : gmap string pyval) : M unit :=
  fun s => (Ok tt, State (with_kwargs kw (self s)) (plt s) (logger s)).

Definition put_plt (p : pyplot) : M unit :=
  fun s => (Ok tt, State (self s) p (logger s)).

Definition get_plt : M pyplot := fun s => (Ok (plt s), s).

(** [self.kwargs[k] = v] *)
Definition kwargs_set (k : string) (v : pyval) : M unit :=
  kw <- get_kwargs ;; put_kwargs (<[k := v]> kw).

(** [if k not in self.kwargs: self.kwargs[k] = v] *)
Definition kwargs_setdefault (k : string) (v : pyval) : M unit :=
  kw <- get_kwargs ;;
  match kw !! k with
  | None => put_kwargs (<[k := v]> kw)
  | Some _ => ret tt
  end.

(** [self.kwargs.pop(k, None)] *)
Definition kwargs_pop (k : string) : M unit :=
  kw <- get_kwargs ;; put_kwargs (delete k kw).

(** [logger.warning(...).format(index)] *)
Definition logger_warning (index : nat) : M unit :=
  fun s => (Ok tt, State (self s) (plt s) (logger s ++ [index])).

(** [plt.figure(...)]: a new, empty figure, which becomes current. *)
Definition plt_figure : M nat :=
  p <- get_plt ;;
  let f := length (figures p) in
  _ <- put_plt (Pyplot (figures p ++ [[]]) (Some f)) ;;
  ret f.

(** [plt.gcf()]: the current figure, created if there is none. *)
Definition plt_gcf : M nat :=
  p <- get_plt ;;
  match current p with
  | Some f => ret f
  | None => plt_figure
  end.

(** [plt.clf()]: clears the current figure. *)
Definition plt_clf : M unit :=
  f <- plt_gcf ;;
  p <- get_plt ;;
  put_plt (Pyplot (<[f := []]> (figures p)) (current p)).

(** [fig.axes] *)
Definition fig_axes (f : nat) : M (list (list ax_op)) :=
  p <- get_plt ;; ret (default [] (figures p !! f)).

(** [fig.add_subplot(111)] and [ax.twiny()] both append a fresh axes
    object to the figure and return it. *)
Definition add_axes (f : nat) : M (nat * nat) :=
  axs <- fig_axes f ;;
  p <- get_plt ;;
  _ <- put_plt (Pyplot (<[f := axs ++ [[]]]> (figures p)) (current p)) ;;
  ret (f, length axs).

Definition add_subplot (f : nat) : M (nat * nat) := add_axes f.

Definition twiny (a : nat * nat) : M (nat * nat) := add_axes (fst a).

(** A call on an axes object is appended to its list. *)
Definition ax_call (a : nat * nat) (op : ax_op) : M unit :=
  p <- get_plt ;;
  put_plt (Pyplot (alter (alter (fun ops => ops ++ [op]) (snd a)) (fst a)
                         (figures p))
                  (current p)).

(** [plt.gca()]: the axes added last to the current figure, created if
    the figure has none. *)
Definition plt_gca : M (nat * nat) :=
  f <- plt_gcf ;;
  axs <- fig_axes f ;;
  match axs with
  | [] => add_axes f
  | _ => ret (f, (length axs - 1)%nat)
  end.

(** [plt.title("Learning curve for task: {}".format(task_name), y=1.06)] *)
Definition plt_title (task : option string) : M unit :=
  a <- plt_gca ;; ax_call a (SetTitle task).

(** [plt.subplots()]: a new current figure with one axes object. *)
Definition plt_subplots : M (nat * (nat * nat)) :=
  f <- plt_figure ;;
  a <- add_subplot f ;;
  ret (f, a).

(** [[g(t) for t in l]] where the local variable [g] may be unbound: the
    body of the comprehension runs only when [l] is not empty. *)
Definition comprehension (name : string) (g : option (R -> R)) (l : list R)
  : M (list R) :=
  match l with
  | [] => ret []
  | _ =>
      match g with
      | Some g => ret (List.map g l)
      | None => raise (NameError name)
      end
  end.

(** Reading a local variable that may be unbound. *)
Definition local {A} (name : string) (v : option A) : M A :=
  match v with
  | Some a => ret a
  | None => raise (NameError name)
  end.

(** [if self.model_name:] holds for a non-empty string. *)
Definition truthy (name : option string) : bool :=
  match name with
  | Some (String _ _) => true
  | _ => false
  end.

(** ** What the method takes from outside this file *)

(** [transform_time] of [autodl.utils.util], [auc_step] of
    [autodl.auto_scoring.score] and [auc] of [sklearn.metrics]: the method
    is embedded over any three such functions.  They are taken as the
    spec describes them, pure functions from parallel X/Y sequences (or
    from a time) to a scalar: the checks the real ones make on their
    arguments are outside this model.

    [float_add] and [float_sub] are the [+] and [-] of Python floats:
    the sum and the difference, rounded.

    [line2d_error] and [color_error] are matplotlib's checks on what the
    caller supplied: the keyword arguments [ax.plot] passes to [Line2D]
    and the colour given to [ax.fill_between].  Each yields the message
    of the exception matplotlib raises, if it raises one. *)
Class Externals : Type := {
  transform_time : R -> R -> R -> R;
  auc_step : list R -> list R -> R;
  auc : list R -> list R -> R;
  float_add : R -> R -> R;
  float_sub : R -> R -> R;
  line2d_error : gmap string pyval -> option string;
  color_error : string -> option string
}.

Module Modelled.

(** Modelled from the spec: [transform_time] of [autodl/utils/util.py] is
    not among the sources.  The spec gives the canonical transform
    [f(t) = log(1 + t/t0) / log(1 + time_budget/t0)] of the relative
    time [t]. *)
Definition transform_time (t time_budget t0 : R) : R :=
  ln (1 + t / t0) / ln (1 + time_budget / t0).

(** Modelled from the spec: [auc_step] of [autodl/auto_scoring/score.py]
    is not among the sources.  The spec names it the step-function
    (right-continuous, steps-post) quadrature rule over parallel X/Y
    sequences: each [Y[i]] is held over [[X[i], X[i+1])]. *)
Fixpoint auc_step (X Y : list R) : R :=
  match X, Y with
  | x0 :: X', y0 :: Y' =>
      match X' with
      | x1 :: _ => (x1 - x0) * y0 + auc_step X' Y'
      | [] => 0
      end
  | _, _ => 0
  end.

(** Modelled from the spec: [auc] is [sklearn.metrics.auc], an external
    library function.  The spec names it the standard trapezoidal
    quadrature over the same points. *)
Fixpoint auc (X Y : list R) : R :=
  match X, Y with
  | x0 :: X', y0 :: Y' =>
      match X', Y' with
      | x1 :: _, y1 :: _ => (x1 - x0) * (y0 + y1) / 2 + auc X' Y'
      | _, _ => 0
      end
  | _, _ => 0
  end.

(** Rounding to the nearest double, ties to even, of a real in the
    normal range of binary64 (53 significant bits): [exponent x] is the
    [e] with [2^e <= |x| < 2^(e+1)], and [x] is rounded to a multiple of
    [2^(e-52)]. *)
Definition exponent (x : R) : Z := Int_part (ln (Rabs x) / ln 2).

Definition nearest_even (m : R) : Z :=
  let f := Int_part m in
  if Rlt_dec (m - IZR f) (1 / 2) then f
  else if Rlt_dec (1 / 2) (m - IZR f) then (f + 1)%Z
  else if Z.even f then f else (f + 1)%Z.

Definition round64 (x : R) : R :=
  if Req_dec_T x 0 then 0
  else
    let ulp := powerRZ 2 (exponent x - 52) in
    IZR (nearest_even (x / ulp)) * ulp.

(** [x + y] and [x - y] on Python floats. *)
Definition float_add (x y : R) : R := round64 (x + y).

Definition float_sub (x y : R) : R := round64 (x - y).

(** The colour names of matplotlib's base table and some of its CSS
    table; the other ways of writing a colour (hex strings, grey levels,
    tuples) are outside this model, which refuses them. *)
Definition named_colors : list string :=
  ["b"; "g"; "r"; "c"; "m"; "y"; "k"; "w"; "black"; "white"; "red";
   "green"; "blue"; "cyan"; "magenta"; "yellow"; "orange"; "purple";
   "brown"; "pink"; "gray"; "grey"; "olive"; "navy"; "teal"; "lime";
   "aqua"; "maroon"; "silver"; "gold"; "indigo"; "violet"; "turquoise";
   "salmon"; "coral"; "khaki"; "orchid"; "plum"; "tan"; "beige";
   "lightblue"; "lightgreen"; "lightgray"; "lightgrey"; "darkblue";
   "darkgreen"; "darkred"; "darkorange"; "skyblue"; "steelblue"].

(** What matplotlib's [Line2D] accepts for the keywords the method sets
    itself and for the colour of the line.  A keyword that is not a
    property of [Line2D] is an [AttributeError] of matplotlib and a value
    it cannot use a [ValueError]; the other properties, their short names
    and the other ways of writing a value are outside this model, which
    refuses them. *)
Definition markers : list string :=
  ["."; ","; "o"; "v"; "^"; "<"; ">"; "1"; "2"; "3"; "4"; "8"; "s"; "p";
   "P"; "*"; "h"; "H"; "+"; "x"; "X"; "D"; "d"; "|"; "_"; "None"].

Definition linestyles : list string :=
  ["-"; "--"; "-."; ":"; "None"; "solid"; "dashed"; "dashdot"; "dotted"].

Definition drawstyles : list string :=
  ["default"; "steps"; "steps-pre"; "steps-mid"; "steps-post"].

Definition among (names : list string) (v : pyval) : bool :=
  match v with
  | PyStr s => existsb (String.eqb s) names
  | _ => false
  end.

Definition line2d_accepts (k : string) (v : pyval) : bool :=
  if String.eqb k "label" then true
  else if String.eqb k "marker"
  then match v with PyNone => true | _ => among markers v end
  else if String.eqb k "linestyle" then among linestyles v
  else if String.eqb k "drawstyle" then among drawstyles v
  else if String.eqb k "color" then among named_colors v
  else if String.eqb k "linewidth" || String.eqb k "markersize"
  then match v with PyInt _ | PyFloat _ => true | _ => false end
  else false.

Definition line2d_error (kw : gmap string pyval) : option string :=
  option_map fst
    (List.find (fun kv => negb (line2d_accepts (fst kv) (snd kv)))
               (map_to_list kw)).

Definition color_error (color : string) : option string :=
  if existsb (String.eqb color) named_colors then None else Some color.

End Modelled.

#[export] Instance modelled : Externals :=
  Build_Externals Modelled.transform_time Modelled.auc_step Modelled.auc
    Modelled.float_add Modelled.float_sub
    Modelled.line2d_error Modelled.color_error.

(** ** The class [PlotAlc] *)

(** [init_plot] (lines 54-55) *)
Definition init_plot : M unit :=
  r <- plt_subplots ;;
  fun s => (Ok tt, State (with_fig_ax (Some (fst r)) (Some (snd r)) (self s))
                         (plt s) (logger s)).

(** [__init__] (lines 17-52), run in a given pyplot and logger. *)
Definition __init__ (method : string) (transform : option (R -> R))
  (task_name : option string) (area_color : string) (fill_area : bool)
  (model_name : option string) (clear_figure show_final_score
  show_title : bool) (kwargs : gmap string pyval)
  (p : pyplot) (log : list nat) : state :=
  snd (init_plot
         (State (Build_PlotAlc method transform task_name area_color
                   fill_area model_name clear_figure show_final_score
                   show_title kwargs 0 None None)
                p log)).

(** [PlotAlc()] with every argument at its default, in a fresh process. *)
Definition PlotAlc_default : state :=
  __init__ "step" None None "cyan" true None true true true ∅
           (Pyplot [] None) [].

(** [PlotAlc(method=..., transform=...)] in a fresh process, the other
    arguments at their defaults. *)
Definition PlotAlc_with (method : string) (transform : option (R -> R))
  : state :=
  __init__ method transform None "cyan" true None true true true ∅
           (Pyplot [] None) [].

(** The choice made from [self.method] (lines 142-152). *)
Record method_choice : Type := MethodChoice {
  drawstyle : string;
  step : option string;
  auc_func : list R -> list R -> R
}.

Section PlotLearningCurve.

Context {ext : Externals}.

Definition choose_method (m : string) : M method_choice :=
  if String.eqb m "step"
  then ret (MethodChoice "steps-post" (Some "post") auc_step)
  else if String.eqb m "trapez"
  then ret (MethodChoice "default" None auc)
  else raise InvalidMethod.

(** The creation of the figure (lines 127-140); [transform] is the local
    variable, unbound when a custom transform was given. *)
Definition new_figure (self : PlotAlc) (transform : option (R -> R))
  (xlabel : xlabel_text) (time_budget : R) : M nat :=
  fig <- plt_figure ;;
  ax <- add_subplot fig ;;
  _ <- when (show_title self) (plt_title (task_name self)) ;;
  _ <- ax_call ax (SetXlabel xlabel) ;;
  _ <- ax_call ax (SetXlim 0 1) ;;
  _ <- ax_call ax (SetYlabel "score (2 * AUC - 1)") ;;
  _ <- ax_call ax (SetYlim (- (1 / 100)) 1) ;;
  _ <- ax_call ax (Grid true) ;;
  ax2 <- twiny ax ;;
  let ticks := ([10; 60; 300; 600; 1200]
                ++ py_range 1800 (py_int time_budget + 1) 1800)%Z in
  xticks <- comprehension "transform" transform (List.map IZR ticks) ;;
  _ <- ax_call ax2 (SetXticks xticks) ;;
  _ <- ax_call ax2 (SetXticklabels ticks) ;;
  ret fig.

(** The truncation of the trace to the time budget (lines 98-102); it
    yields the retained timestamps and scores. *)
Definition truncate (timestamps scores : list R)
  (start_time time_budget : R) : M (list R * list R) :=
  let le := length timestamps in
  let timestamps :=
    List.filter (fun t => Rleb t (float_add time_budget start_time))
                timestamps in
  if (length timestamps <? le)%nat
  then _ <- logger_warning (length timestamps) ;;
       ret (timestamps, firstn (length timestamps) scores)
  else ret (timestamps, scores).

(** [ax.plot(X, Y, drawstyle=..., **kw)] and [ax.plot(X, Y, **kw)]:
    matplotlib checks the keyword arguments it is passed before it
    draws. *)
Definition ax_plot (ax : nat * nat) (X Y : list R)
  (drawstyle : option string) (kw : gmap string pyval) : M unit :=
  let passed :=
    match drawstyle with
    | Some d => <["drawstyle" := PyStr d]> kw
    | None => kw
    end in
  match line2d_error passed with
  | Some message => raise (MatplotlibError message)
  | None => ax_call ax (Plot X Y drawstyle kw)
  end.

(** [ax.fill_between(X, Y, color=..., step=...)] *)
Definition ax_fill_between (ax : nat * nat) (X Y : list R)
  (color : string) (step : option string) : M unit :=
  match color_error color with
  | Some message => raise (MatplotlibError message)
  | None => ax_call ax (FillBetween X Y color step)
  end.

(** The drawing of the curve once the ALC is known (lines 158-182).
    [ax.plot(..., drawstyle=drawstyle, **self.kwargs)] is a [TypeError]
    of Python when the dictionary has the key "drawstyle" too. *)
Definition draw_curve (self : PlotAlc) (ax : nat * nat)
  (choice : method_choice) (X Y : list R) (alc : R) : M unit :=
  let label :=
    if truthy (model_name self)
    then AlcLabel (model_name self) alc
    else AlcLabel None alc in
  _ <- kwargs_setdefault "marker" (PyStr "o") ;;
  _ <- kwargs_setdefault "markersize" (PyInt 3) ;;
  _ <- kwargs_setdefault "label" (PyLabel label) ;;
  kw <- get_kwargs ;;
  _ <- match kw !! "drawstyle" with
       | Some _ => raise (TypeErrorMultipleValues "drawstyle")
       | None => ax_plot ax (but_last X) (but_last Y)
                         (Some (drawstyle choice)) kw
       end ;;
  _ <- when (fill_area self)
         (ax_fill_between ax X Y (area_color self) (step choice)) ;;
  _ <- when (show_final_score self)
         (ax_call ax (Text (item_last X) (item_last Y) (item_last Y))) ;;
  _ <- kwargs_set "linestyle" (PyStr "--") ;;
  _ <- kwargs_set "linewidth" (PyInt 1) ;;
  _ <- kwargs_set "marker" PyNone ;;
  _ <- kwargs_pop "label" ;;
  kw <- get_kwargs ;;
  _ <- ax_plot ax (last_two X) (last_two Y) None kw ;;
  ax_call ax Legend.

(** [plot_learning_curve] (lines 72-183).  The value returned is the pair
    of the ALC and of the figure. *)
Definition plot_learning_curve (timestamps scores : list R)
  (start_time time_budget : R) : M (R * nat) :=
  (* line 96 *)
  _ <- lift (check_conditions timestamps scores start_time) ;;
  (* lines 98-102 *)
  retained <- truncate timestamps scores start_time time_budget ;;
  let timestamps := fst retained in
  let scores := snd retained in
  self <- get_self ;;
  (* lines 103-112: the local [transform] is bound in the first branch
     only *)
  let t0 := 60 in
  let transform_xlabel :=
    match transform self with
    | None => (Some (fun t => transform_time t time_budget t0),
               XlabelDefault (py_int time_budget) (py_int t0))
    | Some _ => (None, XlabelGeneric)
    end in
  let transform := fst transform_xlabel in
  let xlabel := snd transform_xlabel in
  (* lines 116-122 *)
  let relative_timestamps :=
    List.map (fun t => float_sub t start_time) timestamps in
  X <- comprehension "transform" transform relative_timestamps ;;
  let Y := scores in
  let X := 0 :: X in
  let Y := 0 :: Y in
  (* lines 124-125 *)
  _ <- when (clear_figure self) plt_clf ;;
  (* lines 126-140: [self.fig is None or len(self.fig.axes) == 0]; the
     local [fig] is bound in this branch only *)
  axs <- match fig self with
         | None => ret []
         | Some f => fig_axes f
         end ;;
  fig <- (if (length axs =? 0)%nat
          then f <- new_figure self transform xlabel time_budget ;;
               ret (Some f)
          else ret None) ;;
  (* line 141: [ax = fig.axes[0]] *)
  fig <- local "fig" fig ;;
  axs <- fig_axes fig ;;
  ax <- match axs with
        | [] => raise IndexError
        | _ :: _ => ret (fig, 0%nat)
        end ;;
  (* lines 142-152 *)
  choice <- choose_method (method self) ;;
  (* lines 154-157 *)
  let X := X ++ [1] in
  let Y := Y ++ [item_last Y] in
  let alc := auc_func choice X Y in
  (* lines 158-183 *)
  _ <- draw_curve self ax choice X Y alc ;;
  ret (alc, fig).

End PlotLearningCurve.

(** ** What a call computes, in closed form *)

(** The timestamps and scores kept by the truncation. *)
Definition retained_timestamps {ext : Externals} (timestamps : list R)
  (start_time time_budget : R) : list R :=
  List.filter (fun t => Rleb t (float_add time_budget start_time))
              timestamps.

Definition retained_scores {ext : Externals} (timestamps scores : list R)
  (start_time time_budget : R) : list R :=
  firstn (length (retained_timestamps timestamps start_time time_budget))
         scores.

(** The curve with its origin and its final point at [X = 1]. *)
Definition curve_X {ext : Externals} (g : R -> R) (timestamps : list R)
  (start_time time_budget : R) : list R :=
  [0] ++ List.map (fun t => g (float_sub t start_time))
                  (retained_timestamps timestamps start_time time_budget)
      ++ [1].

Definition curve_Y {ext : Externals} (timestamps scores : list R)
  (start_time time_budget : R) : list R :=
  let kept := retained_scores timestamps scores start_time time_budget in
  [0] ++ kept ++ [List.last kept 0].

(** The default transform of a call with budget [time_budget]. *)
Definition default_transform {ext : Externals} (time_budget : R) : R -> R :=
  fun t => transform_time t time_budget 60.

(** The choice of a valid method. *)
Definition choice_of {ext : Externals} (m : string) : option method_choice :=
  if String.eqb m "step"
  then Some (MethodChoice "steps-post" (Some "post") auc_step)
  else if String.eqb m "trapez"
  then Some (MethodChoice "default" None auc)
  else None.

(** The dictionary used for the curve, and the one left in
    [self.kwargs] by the dashed connector. *)
Definition setdefault (k : string) (v : pyval) (kw : gmap string pyval)
  : gmap string pyval :=
  match kw !! k with
  | None => <[k := v]> kw
  | Some _ => kw
  end.

Definition curve_kwargs (label : alc_label) (kw : gmap string pyval)
  : gmap string pyval :=
  setdefault "label" (PyLabel label)
    (setdefault "markersize" (PyInt 3) (setdefault "marker" (PyStr "o") kw)).

Definition connector_kwargs (kw : gmap string pyval) : gmap string pyval :=
  delete "label"
    (<["marker" := PyNone]>
       (<["linewidth" := PyInt 1]> (<["linestyle" := PyStr "--"]> kw))).

Definition label_of (self : PlotAlc) (alc : R) : alc_label :=
  if truthy (model_name self)
  then AlcLabel (model_name self) alc
  else AlcLabel None alc.

(** pyplot after the optional [plt.clf()] of line 125. *)
Definition after_clear (s : state) : pyplot :=
  plt (snd (when (clear_figure (self s)) plt_clf s)).

(** The test of line 126, made after the optional clear: [self.fig] is
    [None] or has no axes. *)
Definition own_figure_blank (s : state) : bool :=
  match fig (self s) with
  | None => true
  | Some f => (length (default [] (figures (after_clear s) !! f)) =? 0)%nat
  end.

(** The calls made on the two axes of a new figure. *)
Definition ticks_of (time_budget : R) : list Z :=
  ([10; 60; 300; 600; 1200]
   ++ py_range 1800 (py_int time_budget + 1) 1800)%Z.

Definition setup_ops (self : PlotAlc) (xlabel : xlabel_text) : list ax_op :=
  (if show_title self then [SetTitle (task_name self)] else [])
  ++ [SetXlabel xlabel; SetXlim 0 1; SetYlabel "score (2 * AUC - 1)";
      SetYlim (- (1 / 100)) 1; Grid true].

Definition twin_ops (g : R -> R) (time_budget : R) : list ax_op :=
  [SetXticks (List.map g (List.map IZR (ticks_of time_budget)));
   SetXticklabels (ticks_of time_budget)].

Definition draw_ops (self : PlotAlc) (choice : method_choice)
  (X Y : list R) (alc : R) : list ax_op :=
  let kw := curve_kwargs (label_of self alc) (kwargs self) in
  [Plot (but_last X) (but_last Y) (Some (drawstyle choice)) kw]
  ++ (if fill_area self
      then [FillBetween X Y (area_color self) (step choice)] else [])
  ++ (if show_final_score self
      then [Text (item_last X) (item_last Y) (item_last Y)] else [])
  ++ [Plot (last_two X) (last_two Y) None (connector_kwargs kw); Legend].

(** The drawing style of a method, and what matplotlib has to accept for
    the curve, the area and the connector of a call to be drawn, whatever
    the text of the label. *)
Definition drawstyle_of (m : string) : string :=
  if String.eqb m "step" then "steps-post" else "default".

Definition matplotlib_accepts {ext : Externals} (self : PlotAlc) : Prop :=
  (forall l, line2d_error
               (<["drawstyle" := PyStr (drawstyle_of (method self))]>
                  (curve_kwargs l (kwargs self))) = None)
  /\ (fill_area self = true -> color_error (area_color self) = None)
  /\ (forall l, line2d_error (connector_kwargs (curve_kwargs l (kwargs self)))
                = None).

(** The calls that draw the curve, as opposed to those that set a new
    figure up. *)
Definition is_drawing (op : ax_op) : bool :=
  match op with
  | Plot _ _ _ _ | FillBetween _ _ _ _ | Text _ _ _ | Legend => true
  | _ => false
  end.

(** The warnings of a call that passes validation. *)
Definition truncation_warning {ext : Externals} (timestamps : list R)
  (start_time time_budget : R) : list nat :=
  let kept := retained_timestamps timestamps start_time time_budget in
  if (length kept <? length timestamps)%nat then [length kept] else [].

(** A caller making several calls in a row on the same plotter, whatever
    each call returns or raises. *)
Record call_args : Type := CallArgs {
  arg_timestamps : list R;
  arg_scores : list R;
  arg_start_time : R;
  arg_time_budget : R
}.

Definition call {ext : Externals} (a : call_args) : M (R * nat) :=
  plot_learning_curve (arg_timestamps a) (arg_scores a)
                      (arg_start_time a) (arg_time_budget a).

Fixpoint calls {ext : Externals} (l : list call_args) (s : state)
  : list (result (R * nat)) * state :=
  match l with
  | [] => ([], s)
  | a :: rest =>
      let r := call a s in
      let rs := calls rest (snd r) in
      (fst r :: fst rs, snd rs)
  end.

(** ** Frame and exception properties of a computation *)

(** [m] leaves the component [f] of the state as it found it, whether it
    returns or raises. *)
Definition keeps {X A} (f : state -> X) (m : M A) : Prop :=
  forall s, f (snd (m s)) = f s.

(** Every exception [m] raises satisfies [P]. *)
Definition raises_only {A} (P : exn -> Prop) (m : M A) : Prop :=
  forall s e, fst (m s) = Raise e -> P e.

(** The exceptions raised after validation. *)
Definition late_error (e : exn) : Prop :=
  match e with
  | NameError _ | IndexError | InvalidMethod | TypeErrorMultipleValues _
  | MatplotlibError _ =>
      True
  | _ => False
  end.

(** Every attribute of the instance but [self.kwargs]. *)
Definition settings (s : state) : PlotAlc := with_kwargs ∅ (self s).

(** Timestamps in non-decreasing order, as [check_conditions] accepts
    them. *)
Definition nondecreasing (ts : list R) : Prop :=
  forall i, (i + 1 < length ts)%nat -> item ts i <= item ts (i + 1).

(** [self.kwargs] after a call that returns. *)
Definition kwargs_after (kw : gmap string pyval) : gmap string pyval :=
  <["linestyle" := PyStr "--"]>
    (<["linewidth" := PyInt 1]>
       (<["marker" := PyNone]>
          (<["markersize" := default (PyInt 3) (kw !! "markersize")]>
             (delete "label" kw)))).

(** * Properties *)

(** ** The monad *)

Lemma bind_ok {A B} (m : M A) (k : A -> M B) s a s' :
  m s = (Ok a, s') -> bind m k s = k a s'.
Proof. intros H. unfold bind. now rewrite H. Qed.

Lemma bind_raise {A B} (m : M A) (k : A -> M B) s e s' :
  m s = (Raise e, s') -> bind m k s = (Raise e, s').
Proof. intros H. unfold bind. now rewrite H. Qed.

(** ** pyplot *)

Lemma ax_call_last (F : list (list (list ax_op)))
  (pre post : list (list ax_op)) (ops : list ax_op) (op : ax_op) c slf lg :
  ax_call (length F, length pre) op
          (State slf (Pyplot (F ++ [pre ++ ops :: post]) c) lg)
  = (Ok tt, State slf (Pyplot (F ++ [pre ++ (ops ++ [op]) :: post]) c) lg).
Proof.
  unfold ax_call, bind, get_plt, put_plt. cbn.
  do 3 f_equal.
  rewrite alter_app_r_alt by lia.
  rewrite Nat.sub_diag. cbn. f_equal. f_equal.
  rewrite alter_app_r_alt by lia.
  rewrite Nat.sub_diag. reflexivity.
Qed.

Ltac step L := rewrite (bind_ok _ _ _ _ _ L).

Lemma plt_figure_eq slf F c lg :
  plt_figure (State slf (Pyplot F c) lg)
  = (Ok (length F), State slf (Pyplot (F ++ [[]]) (Some (length F))) lg).
Proof. reflexivity. Qed.

Lemma lookup_end {A} (F : list A) (x : A) : (F ++ [x]) !! length F = Some x.
Proof. apply list_lookup_middle. reflexivity. Qed.

Lemma insert_end {A} (F : list A) (x y : A) :
  <[length F := y]> (F ++ [x]) = F ++ [y].
Proof.
  rewrite insert_app_r_alt by lia. now rewrite Nat.sub_diag.
Qed.

Lemma fig_axes_last slf F axs c lg :
  fig_axes (length F) (State slf (Pyplot (F ++ [axs]) c) lg)
  = (Ok axs, State slf (Pyplot (F ++ [axs]) c) lg).
Proof.
  unfold fig_axes, bind, get_plt, ret. cbn. now rewrite lookup_end.
Qed.

Lemma add_axes_last slf F axs c lg :
  add_axes (length F) (State slf (Pyplot (F ++ [axs]) c) lg)
  = (Ok (length F, length axs),
     State slf (Pyplot (F ++ [axs ++ [[]]]) c) lg).
Proof.
  unfold add_axes. rewrite (bind_ok _ _ _ _ _ (fig_axes_last _ _ _ _ _)).
  unfold bind, get_plt, put_plt, ret. cbn. now rewrite insert_end.
Qed.

Lemma ax_call_first slf F ops post op c lg :
  ax_call (length F, 0%nat) op (State slf (Pyplot (F ++ [ops :: post]) c) lg)
  = (Ok tt, State slf (Pyplot (F ++ [(ops ++ [op]) :: post]) c) lg).
Proof. exact (ax_call_last F [] post ops op c slf lg). Qed.

Lemma ax_call_second slf F a0 ops post op c lg :
  ax_call (length F, 1%nat) op
          (State slf (Pyplot (F ++ [a0 :: ops :: post]) c) lg)
  = (Ok tt, State slf (Pyplot (F ++ [a0 :: (ops ++ [op]) :: post]) c) lg).
Proof. exact (ax_call_last F [a0] post ops op c slf lg). Qed.

Lemma plt_title_new slf F ops t lg :
  plt_title t (State slf (Pyplot (F ++ [[ops]]) (Some (length F))) lg)
  = (Ok tt,
     State slf (Pyplot (F ++ [[ops ++ [SetTitle t]]]) (Some (length F))) lg).
Proof.
  set (st := State slf (Pyplot (F ++ [[ops]]) (Some (length F))) lg).
  assert (Hgcf : plt_gcf st = (Ok (length F), st)) by reflexivity.
  assert (Hgca : plt_gca st = (Ok (length F, 0%nat), st)).
  { unfold plt_gca. step Hgcf.
    unfold st. step (fig_axes_last slf F [ops] (Some (length F)) lg).
    reflexivity. }
  unfold plt_title. step Hgca. apply ax_call_first.
Qed.


(** ** The phases of a call *)

Section Phases.

Context {ext : Externals}.

Lemma new_figure_ok slf g xl T slf0 p lg :
  new_figure slf (Some g) xl T (State slf0 p lg)
  = (Ok (length (figures p)),
     State slf0
           (Pyplot (figures p ++ [[setup_ops slf xl; twin_ops g T]])
                   (Some (length (figures p))))
           lg).
Proof.
  destruct p as [F c]. cbn [figures].
  unfold new_figure, add_subplot, twiny, setup_ops.
  step (plt_figure_eq slf0 F c lg).
  step (add_axes_last slf0 F [] (Some (length F)) lg). cbn [app length fst].
  set (title := if show_title slf then [SetTitle (task_name slf)] else []).
  assert (Ht : when (show_title slf) (plt_title (task_name slf))
            (State slf0 (Pyplot (F ++ [[[]]]) (Some (length F))) lg)
          = (Ok tt,
             State slf0 (Pyplot (F ++ [[title]]) (Some (length F))) lg)).
  { unfold title. destruct (show_title slf);
      [apply plt_title_new | reflexivity]. }
  step Ht.
  repeat (erewrite (bind_ok _ _ _ _ _ (ax_call_first _ _ _ _ _ _ _))).
  erewrite (bind_ok _ _ _ _ _ (add_axes_last _ _ _ _ _)).
  cbn [app length fst].
  unfold comprehension at 1. cbn [app List.map].
  unfold bind at 1. cbn [ret].
  repeat (erewrite (bind_ok _ _ _ _ _ (ax_call_second _ _ _ _ _ _ _ _))).
  unfold ret, twin_ops, ticks_of. cbn [app]. rewrite <- !app_assoc. reflexivity.
Qed.

Lemma kwargs_setdefault_eq k v slf p lg :
  kwargs_setdefault k v (State slf p lg)
  = (Ok tt, State (with_kwargs (setdefault k v (kwargs slf)) slf) p lg).
Proof.
  destruct slf. unfold kwargs_setdefault, setdefault, bind, get_kwargs.
  cbn. destruct (_ !! k); reflexivity.
Qed.

Lemma kwargs_set_eq k v slf p lg :
  kwargs_set k v (State slf p lg)
  = (Ok tt, State (with_kwargs (<[k := v]> (kwargs slf)) slf) p lg).
Proof. reflexivity. Qed.

Lemma kwargs_pop_eq k slf p lg :
  kwargs_pop k (State slf p lg)
  = (Ok tt, State (with_kwargs (delete k (kwargs slf)) slf) p lg).
Proof. reflexivity. Qed.

Lemma when_ax_call_first (b : bool) slf F ops post op c lg :
  when b (ax_call (length F, 0%nat) op)
       (State slf (Pyplot (F ++ [ops :: post]) c) lg)
  = (Ok tt,
     State slf (Pyplot (F ++ [(ops ++ (if b then [op] else [])) :: post]) c)
           lg).
Proof.
  destruct b; cbn [when].
  - apply ax_call_first.
  - now rewrite app_nil_r.
Qed.

Lemma curve_kwargs_drawstyle label kw :
  curve_kwargs label kw !! "drawstyle" = kw !! "drawstyle".
Proof.
  unfold curve_kwargs, setdefault.
  repeat (case_match; rewrite ?lookup_insert_ne by done); reflexivity.
Qed.

Lemma ax_plot_first slf F ops post X Y d kw c lg :
  line2d_error match d with
               | Some d' => <["drawstyle" := PyStr d']> kw
               | None => kw
               end = None ->
  ax_plot (length F, 0%nat) X Y d kw
          (State slf (Pyplot (F ++ [ops :: post]) c) lg)
  = (Ok tt,
     State slf (Pyplot (F ++ [(ops ++ [Plot X Y d kw]) :: post]) c) lg).
Proof.
  intros H. unfold ax_plot. cbv zeta. rewrite H. apply ax_call_first.
Qed.

Lemma when_ax_fill_first (b : bool) slf F ops post X Y color st c lg :
  (b = true -> color_error color = None) ->
  when b (ax_fill_between (length F, 0%nat) X Y color st)
       (State slf (Pyplot (F ++ [ops :: post]) c) lg)
  = (Ok tt,
     State slf
           (Pyplot (F ++ [(ops ++ (if b then [FillBetween X Y color st]
                                   else [])) :: post]) c)
           lg).
Proof.
  intros H. destruct b; cbn [when].
  - unfold ax_fill_between. rewrite (H eq_refl). apply ax_call_first.
  - now rewrite app_nil_r.
Qed.

Lemma draw_curve_ok slf F ops post c lg choice X Y alc :
  kwargs slf !! "drawstyle" = None ->
  line2d_error (<["drawstyle" := PyStr (drawstyle choice)]>
                  (curve_kwargs (label_of slf alc) (kwargs slf))) = None ->
  (fill_area slf = true -> color_error (area_color slf) = None) ->
  line2d_error (connector_kwargs
                  (curve_kwargs (label_of slf alc) (kwargs slf))) = None ->
  draw_curve slf (length F, 0%nat) choice X Y alc
             (State slf (Pyplot (F ++ [ops :: post]) c) lg)
  = (Ok tt,
     State (with_kwargs
              (connector_kwargs (curve_kwargs (label_of slf alc) (kwargs slf)))
              slf)
           (Pyplot (F ++ [(ops ++ draw_ops slf choice X Y alc) :: post]) c)
           lg).
Proof.
  intros Hd Hp1 Hf Hp2. unfold draw_curve.
  step (kwargs_setdefault_eq "marker" (PyStr "o") slf
          (Pyplot (F ++ [ops :: post]) c) lg).
  erewrite (bind_ok _ _ _ _ _ (kwargs_setdefault_eq _ _ _ _ _)).
  erewrite (bind_ok _ _ _ _ _ (kwargs_setdefault_eq _ _ _ _ _)).
  unfold get_kwargs at 1. unfold bind at 1.
  cbn [self kwargs with_kwargs].
  fold (label_of slf alc).
  fold (curve_kwargs (label_of slf alc) (kwargs slf)).
  rewrite curve_kwargs_drawstyle, Hd.
  erewrite (bind_ok _ _ _ _ _
              (ax_plot_first _ _ _ _ _ _ (Some _) _ _ _ Hp1)).
  erewrite (bind_ok _ _ _ _ _ (when_ax_fill_first _ _ _ _ _ _ _ _ _ _ _ Hf)).
  erewrite (bind_ok _ _ _ _ _ (when_ax_call_first _ _ _ _ _ _ _ _)).
  erewrite (bind_ok _ _ _ _ _ (kwargs_set_eq _ _ _ _ _)).
  erewrite (bind_ok _ _ _ _ _ (kwargs_set_eq _ _ _ _ _)).
  erewrite (bind_ok _ _ _ _ _ (kwargs_set_eq _ _ _ _ _)).
  erewrite (bind_ok _ _ _ _ _ (kwargs_pop_eq _ _ _ _)).
  unfold get_kwargs at 1. unfold bind at 1.
  erewrite (bind_ok _ _ _ _ _
              (ax_plot_first _ _ _ _ _ _ None _ _ _ Hp2)).
  rewrite ax_call_first.
  cbn [self kwargs with_kwargs method transform task_name area_color fill_area
       model_name clear_figure show_final_score show_title cur_frame fig ax].
  unfold draw_ops.
  fold (connector_kwargs (curve_kwargs (label_of slf alc) (kwargs slf))).
  rewrite <- !app_assoc. destruct slf; reflexivity.
Qed.


Lemma check_conditions_length ts scores start :
  check_conditions ts scores start = Ok tt -> length ts = length scores.
Proof.
  unfold check_conditions.
  destruct (Nat.eqb_spec (length ts) (length scores)); [auto | discriminate].
Qed.

Lemma retained_length_le ts start T :
  (length (retained_timestamps ts start T) <= length ts)%nat.
Proof. apply List.filter_length_le. Qed.

Lemma truncate_ok ts scores start T slf p lg :
  length ts = length scores ->
  truncate ts scores start T (State slf p lg)
  = (Ok (retained_timestamps ts start T, retained_scores ts scores start T),
     State slf p (lg ++ truncation_warning ts start T)).
Proof.
  intros Hlen. unfold truncate, truncation_warning, retained_scores.
  fold (retained_timestamps ts start T).
  pose proof (retained_length_le ts start T) as Hle.
  destruct (Nat.ltb_spec (length (retained_timestamps ts start T)) (length ts)).
  - reflexivity.
  - assert (E : length (retained_timestamps ts start T) = length scores) by lia.
    rewrite E, firstn_all, app_nil_r. reflexivity.
Qed.

Lemma clear_eq s :
  when (clear_figure (self s)) plt_clf s
  = (Ok tt, State (self s) (after_clear s) (logger s)).
Proof.
  unfold after_clear. destruct s as [slf [F c] lg]. cbn [self logger].
  destruct (clear_figure slf); [destruct c |]; reflexivity.
Qed.

Lemma after_clear_logger slf p lg lg' :
  after_clear (State slf p lg) = after_clear (State slf p lg').
Proof.
  unfold after_clear. destruct p as [F c]. cbn [self].
  destruct (clear_figure slf); [destruct c |]; reflexivity.
Qed.

Lemma item_last_cons (l : list R) :
  item_last (0 :: l) = List.last l 0.
Proof.
  unfold item_last. destruct l as [| a l]; [reflexivity |].
  reflexivity.
Qed.

Lemma choose_method_eq m s :
  choose_method m s
  = match choice_of m with
    | Some c => (Ok c, s)
    | None => (Raise InvalidMethod, s)
    end.
Proof.
  unfold choose_method, choice_of.
  destruct (String.eqb m "step"); [reflexivity |].
  destruct (String.eqb m "trapez"); reflexivity.
Qed.

(** A call that passes validation, up to the choice of the method:
    truncation, transform, optional clear and the new figure. *)
Lemma plot_learning_curve_until_method ts scores start T s :
  check_conditions ts scores start = Ok tt ->
  transform (self s) = None ->
  own_figure_blank s = true ->
  let X := curve_X (default_transform T) ts start T in
  let Y := curve_Y ts scores start T in
  let F := figures (after_clear s) in
  let s1 :=
    State (self s)
          (Pyplot
             (F ++ [[setup_ops (self s) (XlabelDefault (py_int T) (py_int 60));
                     twin_ops (default_transform T) T]])
             (Some (length F)))
          (logger s ++ truncation_warning ts start T) in
  plot_learning_curve ts scores start T s
  = match choice_of (method (self s)) with
    | Some c =>
        (_ <- draw_curve (self s) (length F, 0%nat) c X Y (auc_func c X Y) ;;
         ret (auc_func c X Y, length F)) s1
    | None => (Raise InvalidMethod, s1)
    end.
Proof.
  intros Hchk Htr Hblank X Y F s1.
  unfold plot_learning_curve.
  unfold lift at 1. rewrite Hchk. unfold bind at 1.
  destruct s as [slf p lg]. cbn [self logger] in *.
  step (truncate_ok ts scores start T slf p lg
          (check_conditions_length _ _ _ Hchk)).
  unfold get_self at 1. unfold bind at 1. cbn [self fst snd].
  rewrite Htr. cbn [fst snd].
  assert (Hc : forall st : state,
     comprehension "transform" (Some (fun t => transform_time t T 60))
       (List.map (fun t => float_sub t start)
          (retained_timestamps ts start T)) st
     = (Ok (List.map (fun t => default_transform T (float_sub t start))
              (retained_timestamps ts start T)), st)).
  { intros st. unfold comprehension.
    rewrite List.map_map.
    destruct (retained_timestamps ts start T); reflexivity. }
  step (Hc (State slf p (lg ++ truncation_warning ts start T))).
  pose proof (clear_eq (State slf p (lg ++ truncation_warning ts start T)))
    as Hclr.
  cbn [self logger] in Hclr. step Hclr.
  rewrite (after_clear_logger slf p _ lg). fold F.
  assert (Haxs : match fig slf with
                 | Some f => fig_axes f
                 | None => ret []
                 end (State slf (after_clear (State slf p lg))
                            (lg ++ truncation_warning ts start T))
               = (Ok (match fig slf with
                      | Some f => default [] (F !! f)
                      | None => []
                      end),
                  State slf (after_clear (State slf p lg))
                        (lg ++ truncation_warning ts start T))).
  { destruct (fig slf); reflexivity. }
  step Haxs.
  assert (Hz : (length (match fig slf with
                        | Some f => default [] (F !! f)
                        | None => []
                        end) =? 0)%nat = true).
  { unfold own_figure_blank in Hblank. cbn [self] in Hblank.
    destruct (fig slf); [exact Hblank | reflexivity]. }
  rewrite Hz.
  rewrite (bind_ok _ _ _ _ _
             (bind_ok _ _ _ _ _ (new_figure_ok slf _ _ T slf _ _))).
  fold F. unfold local, ret at 1, bind at 1.
  step (fig_axes_last slf F
          [setup_ops slf (XlabelDefault (py_int T) (py_int 60));
           twin_ops (fun t => transform_time t T 60) T]
          (Some (length F)) (lg ++ truncation_warning ts start T)).
  unfold ret at 1, bind at 1.
  rewrite item_last_cons.
  change ((0 :: List.map (fun t => default_transform T (float_sub t start))
                  (retained_timestamps ts start T)) ++ [1]) with X.
  change ((0 :: retained_scores ts scores start T)
          ++ [List.last (retained_scores ts scores start T) 0]) with Y.
  unfold bind at 1. rewrite choose_method_eq.
  destruct (choice_of (method slf)); reflexivity.
Qed.

(** A call that returns: its value and the state it leaves. *)
Lemma choice_drawstyle m c :
  choice_of m = Some c -> drawstyle c = drawstyle_of m.
Proof.
  unfold choice_of, drawstyle_of.
  destruct (String.eqb m "step"); [intros [= <-]; reflexivity|].
  destruct (String.eqb m "trapez"); [intros [= <-]; reflexivity|].
  discriminate.
Qed.

Lemma plot_learning_curve_ok ts scores start T s c :
  check_conditions ts scores start = Ok tt ->
  transform (self s) = None ->
  choice_of (method (self s)) = Some c ->
  own_figure_blank s = true ->
  kwargs (self s) !! "drawstyle" = None ->
  matplotlib_accepts (self s) ->
  let X := curve_X (default_transform T) ts start T in
  let Y := curve_Y ts scores start T in
  let alc := auc_func c X Y in
  let F := figures (after_clear s) in
  plot_learning_curve ts scores start T s
  = (Ok (alc, length F),
     State (with_kwargs
              (connector_kwargs
                 (curve_kwargs (label_of (self s) alc) (kwargs (self s))))
              (self s))
           (Pyplot
              (F ++ [[setup_ops (self s) (XlabelDefault (py_int T) (py_int 60))
                        ++ draw_ops (self s) c X Y alc;
                      twin_ops (default_transform T) T]])
              (Some (length F)))
           (logger s ++ truncation_warning ts start T)).
Proof.
  intros Hchk Htr Hm Hblank Hkw (Hp1 & Hf & Hp2) X Y alc F.
  rewrite (plot_learning_curve_until_method ts scores start T s
             Hchk Htr Hblank), Hm.
  fold X Y alc F.
  pose proof (Hp1 (label_of (self s) alc)) as Hp1'.
  rewrite <- (choice_drawstyle _ _ Hm) in Hp1'.
  step (draw_curve_ok (self s) F
          (setup_ops (self s) (XlabelDefault (py_int T) (py_int 60)))
          [twin_ops (default_transform T) T]
          (Some (length F)) (logger s ++ truncation_warning ts start T)
          c X Y alc Hkw Hp1' Hf (Hp2 _)).
  reflexivity.
Qed.


End Phases.

(** ** Comparisons *)

Lemma Rleb_true x y : x <= y -> Rleb x y = true.
Proof.
  intros H. unfold Rleb.
  destruct (Rle_dec x y); [reflexivity | contradiction].
Qed.

Lemma Rleb_false x y : y < x -> Rleb x y = false.
Proof. intros H. unfold Rleb. destruct (Rle_dec x y); [lra | reflexivity]. Qed.

Lemma Rltb_true x y : x < y -> Rltb x y = true.
Proof.
  intros H. unfold Rltb.
  destruct (Rlt_dec x y); [reflexivity | contradiction].
Qed.

Lemma Rltb_false x y : y <= x -> Rltb x y = false.
Proof. intros H. unfold Rltb. destruct (Rlt_dec x y); [lra | reflexivity]. Qed.

Lemma Rleb_spec x y : reflect (x <= y) (Rleb x y).
Proof. unfold Rleb. destruct (Rle_dec x y); constructor; assumption. Qed.

Lemma Rltb_spec x y : reflect (x < y) (Rltb x y).
Proof. unfold Rltb. destruct (Rlt_dec x y); constructor; assumption. Qed.

(** Decides the comparisons of concrete numbers in the goal. *)
Ltac Rcompare :=
  repeat match goal with
    | |- context [Rleb ?a ?b] =>
        first [ rewrite (Rleb_true a b) by lra
              | rewrite (Rleb_false a b) by lra ]
    | |- context [Rltb ?a ?b] =>
        first [ rewrite (Rltb_true a b) by lra
              | rewrite (Rltb_false a b) by lra ]
    end.

(** ** Validation *)

Lemma for_range_seq_ok body a n :
  for_range (seq a n) body = Ok tt
  <-> forall i, (a <= i < a + n)%nat -> body i = Ok tt.
Proof.
  revert a. induction n as [| n IH]; intros a; cbn [seq for_range].
  - split; [intros _ i Hi; lia | reflexivity].
  - destruct (body a) as [[] |e] eqn:Ha.
    + rewrite IH. split.
      * intros H i Hi. destruct (Nat.eq_dec i a) as [-> |]; [exact Ha |].
        apply H. lia.
      * intros H i Hi. apply H. lia.
    + split; [discriminate |]. intros H.
      rewrite (H a) in Ha by lia. discriminate.
Qed.

Lemma for_range_seq_raise body a n e :
  for_range (seq a n) body = Raise e
  <-> exists i, (a <= i < a + n)%nat /\ body i = Raise e
                /\ forall k, (a <= k < i)%nat -> body k = Ok tt.
Proof.
  revert a. induction n as [| n IH]; intros a; cbn [seq for_range].
  - split; [discriminate | intros (i & Hi & _); lia].
  - destruct (body a) as [[] |e'] eqn:Ha.
    + rewrite IH. split.
      * intros (i & Hi & He & Hk). exists i.
        split; [lia |]. split; [exact He |].
        intros k Hk'. destruct (Nat.eq_dec k a) as [-> |]; [exact Ha |].
        apply Hk. lia.
      * intros (i & Hi & He & Hk).
        destruct (Nat.eq_dec i a) as [-> |]; [congruence |].
        exists i. split; [lia |]. split; [exact He |].
        intros k Hk'. apply Hk. lia.
    + split.
      * intros [= ->]. exists a. split; [lia |]. split; [exact Ha |].
        intros k Hk. lia.
      * intros (i & Hi & He & Hk).
        destruct (Nat.eq_dec i a) as [-> |]; [congruence |].
        rewrite (Hk a) in Ha by lia. discriminate.
Qed.

Lemma check_at_ok ts start le i :
  check_at ts start le i = Ok tt
  <-> ((i < le - 1)%nat -> item ts i <= item ts (i + 1))
      /\ start <= item ts i.
Proof.
  unfold check_at.
  destruct (Nat.ltb_spec i (le - 1));
    destruct (Rleb_spec (item ts i) (item ts (i + 1)));
    destruct (Rltb_spec (item ts i) start); cbn [andb negb];
    split; try discriminate; try reflexivity; try (intros [H1 H2]; lra);
    try (intros _; split; [intros; lra || lia | lra]).
  all: try (intros [H1 H2]; specialize (H1 H); lra).
Qed.

Lemma check_at_nonmonotonic ts start le i a b i' j' :
  check_at ts start le i = Raise (NonMonotonicTimestamps a b i' j')
  <-> (i < le - 1)%nat /\ item ts (i + 1) < item ts i
      /\ a = item ts i /\ b = item ts (i + 1) /\ i' = i /\ j' = (i + 1)%nat.
Proof.
  unfold check_at.
  destruct (Nat.ltb_spec i (le - 1));
    destruct (Rleb_spec (item ts i) (item ts (i + 1)));
    destruct (Rltb_spec (item ts i) start); cbn [andb negb];
    (split; [intros E | intros (H1 & H2 & -> & -> & -> & ->)]);
    try discriminate E; try lra; try lia; try reflexivity.
  all: inversion E; subst; repeat split; (lra || lia).
Qed.

Lemma check_at_before_start ts start le i t i' st :
  check_at ts start le i = Raise (TimestampBeforeStart t i' st)
  <-> ((i < le - 1)%nat -> item ts i <= item ts (i + 1))
      /\ item ts i < start /\ t = item ts i /\ i' = i /\ st = start.
Proof.
  unfold check_at.
  destruct (Nat.ltb_spec i (le - 1));
    destruct (Rleb_spec (item ts i) (item ts (i + 1)));
    destruct (Rltb_spec (item ts i) start); cbn [andb negb];
    (split; [intros E | intros (H1 & H2 & -> & -> & ->)]);
    try discriminate E; try lra; try lia; try reflexivity.
  all: try (inversion E; subst; repeat split; intros; (lra || lia)).
  all: specialize (H1 ltac:(assumption)); lra.
Qed.

Lemma check_conditions_ok_iff ts scores start :
  check_conditions ts scores start = Ok tt
  <-> length ts = length scores
      /\ (forall i, (i + 1 < length ts)%nat -> item ts i <= item ts (i + 1))
      /\ (forall i, (i < length ts)%nat -> start <= item ts i).
Proof.
  unfold check_conditions.
  destruct (Nat.eqb_spec (length ts) (length scores)) as [E | E]; cbn [negb].
  - rewrite for_range_seq_ok. split.
    + intros H. split; [exact E |]. split; intros i Hi.
      * apply (proj1 (check_at_ok _ _ _ _) (H i ltac:(lia))). lia.
      * apply (proj1 (check_at_ok _ _ _ _) (H i ltac:(lia))).
    + intros (_ & Hm & Hs) i Hi. apply check_at_ok. split.
      * intros Hlt. apply Hm. lia.
      * apply Hs. lia.
  - split; [discriminate | intros (E' & _); contradiction].
Qed.

Lemma check_conditions_nonmonotonic_iff ts scores start a b i j :
  check_conditions ts scores start = Raise (NonMonotonicTimestamps a b i j)
  <-> length ts = length scores
      /\ j = (i + 1)%nat /\ (j < length ts)%nat
      /\ a = item ts i /\ b = item ts j /\ b < a
      /\ (forall k, (k < i)%nat ->
                    item ts k <= item ts (k + 1) /\ start <= item ts k).
Proof.
  unfold check_conditions.
  destruct (Nat.eqb_spec (length ts) (length scores)) as [E | E]; cbn [negb].
  - rewrite for_range_seq_raise. split.
    + intros (n & Hn & He & Hk).
      apply check_at_nonmonotonic in He.
      destruct He as (Hlt & Hd & -> & -> & -> & ->).
      repeat split; try (assumption || lia).
      * apply (proj1 (check_at_ok _ _ _ _) (Hk k ltac:(lia))). lia.
      * apply (proj1 (check_at_ok _ _ _ _) (Hk k ltac:(lia))).
    + intros (_ & -> & Hj & -> & -> & Hd & Hk).
      exists i. split; [lia |]. split.
      * apply check_at_nonmonotonic. repeat split; (assumption || lia).
      * intros k Hk'. apply check_at_ok.
        destruct (Hk k ltac:(lia)). split; auto.
  - split; [discriminate | intros (E' & _); contradiction].
Qed.

Lemma check_conditions_before_start_iff ts scores start t i st :
  check_conditions ts scores start = Raise (TimestampBeforeStart t i st)
  <-> length ts = length scores
      /\ (i < length ts)%nat /\ t = item ts i /\ st = start /\ t < start
      /\ ((i + 1 < length ts)%nat -> item ts i <= item ts (i + 1))
      /\ (forall k, (k < i)%nat ->
                    item ts k <= item ts (k + 1) /\ start <= item ts k).
Proof.
  unfold check_conditions.
  destruct (Nat.eqb_spec (length ts) (length scores)) as [E | E]; cbn [negb].
  - rewrite for_range_seq_raise. split.
    + intros (n & Hn & He & Hk).
      apply check_at_before_start in He.
      destruct He as (Hm & Hd & -> & -> & ->).
      repeat split; try (assumption || lia).
      * intros. apply Hm. lia.
      * apply (proj1 (check_at_ok _ _ _ _) (Hk k ltac:(lia))). lia.
      * apply (proj1 (check_at_ok _ _ _ _) (Hk k ltac:(lia))).
    + intros (_ & Hi & -> & -> & Hd & Hm & Hk).
      exists i. split; [lia |]. split.
      * apply check_at_before_start. repeat split; try (assumption || lia).
        intros. apply Hm. lia.
      * intros k Hk'. apply check_at_ok.
        destruct (Hk k ltac:(lia)). split; auto.
  - split; [discriminate | intros (E' & _); contradiction].
Qed.

Lemma check_conditions_length_mismatch_iff ts scores start n m :
  check_conditions ts scores start = Raise (LengthMismatch n m)
  <-> length ts <> length scores /\ n = length ts /\ m = length scores.
Proof.
  unfold check_conditions.
  destruct (Nat.eqb_spec (length ts) (length scores)) as [E | E]; cbn [negb].
  - split; [| intros (? & _); contradiction].
    intros H. apply for_range_seq_raise in H.
    destruct H as (i & _ & H & _). unfold check_at in H.
    repeat case_match; discriminate.
  - split; [intros [= <- <-]; auto | intros (_ & -> & ->); reflexivity].
Qed.

(** The first descent of a list, if it has one before index [n]. *)
Lemma first_descent (ts : list R) (n : nat) :
  (forall k, (k < n)%nat -> item ts k <= item ts (k + 1))
  \/ exists k, (k < n)%nat /\ item ts (k + 1) < item ts k
               /\ forall k', (k' < k)%nat -> item ts k' <= item ts (k' + 1).
Proof.
  induction n as [| n [IH | (k & Hk & Hd & Hl)]].
  - left. intros k Hk. lia.
  - destruct (Rle_dec (item ts n) (item ts (n + 1))) as [Hle | Hgt].
    + left. intros k Hk. destruct (Nat.eq_dec k n) as [-> |]; [exact Hle |].
      apply IH. lia.
    + right. exists n. split; [lia |]. split; [lra |].
      intros k' Hk'. apply IH. exact Hk'.
  - right. exists k. split; [lia |]. split; assumption.
Qed.

(** ** Frames *)

Lemma keeps_bind {X A B} (f : state -> X) (m : M A) (k : A -> M B) :
  keeps f m -> (forall a, keeps f (k a)) -> keeps f (bind m k).
Proof.
  intros Hm Hk s. unfold bind. specialize (Hm s).
  destruct (m s) as [[a | e] s']; cbn [snd] in *.
  - rewrite Hk. exact Hm.
  - exact Hm.
Qed.

Lemma raises_only_bind {A B} (P : exn -> Prop) (m : M A) (k : A -> M B) :
  raises_only P m -> (forall a, raises_only P (k a)) ->
  raises_only P (bind m k).
Proof.
  intros Hm Hk s e. unfold bind. specialize (Hm s).
  destruct (m s) as [[a | e'] s']; cbn [fst] in *.
  - apply Hk.
  - intros [= <-]. now apply Hm.
Qed.

(** Splits a computation into its primitive steps. *)
Ltac expose :=
  unfold plot_learning_curve, truncate, new_figure, draw_curve,
    choose_method, comprehension, local, when, plt_title, plt_gca,
    plt_clf, plt_gcf, twiny, add_subplot, add_axes, fig_axes, ax_plot,
    ax_fill_between, ax_call, plt_figure, kwargs_set, kwargs_setdefault, kwargs_pop.

Ltac keeps_steps :=
  repeat match goal with
    | |- keeps _ (bind _ _) => apply keeps_bind
    | |- forall _, _ => intro
    | |- keeps _ (match ?x with _ => _ end) => destruct x
    | |- keeps _ _ =>
        let s := fresh "s" in intros s; destruct s; reflexivity
    end.

Ltac raises_steps :=
  repeat match goal with
    | |- raises_only _ (bind _ _) => apply raises_only_bind
    | |- forall _, _ => intro
    | |- raises_only _ (match ?x with _ => _ end) => destruct x
    | |- raises_only _ _ =>
        let s := fresh "s" in let e := fresh "e" in let E := fresh "E" in
        intros s e E; cbn in E;
        first [discriminate E | (inversion E; exact I)]
    end.

Section Frames.

Context {ext : Externals}.

Lemma plot_learning_curve_keeps_settings ts scores start T :
  keeps settings (plot_learning_curve ts scores start T).
Proof.
  expose. keeps_steps.
Qed.


Lemma plot_learning_curve_late ts scores start T :
  check_conditions ts scores start = Ok tt ->
  raises_only late_error (plot_learning_curve ts scores start T).
Proof.
  intros Hchk. unfold plot_learning_curve. rewrite Hchk.
  expose. raises_steps.
Qed.

End Frames.

(** ** Rounding to the nearest double *)

Lemma ln_2_pos : 0 < ln 2.
Proof. pose proof ln_lt_2. lra. Qed.

Lemma ln_powerRZ_2 (e : Z) : ln (powerRZ 2 e) = IZR e * ln 2.
Proof.
  rewrite powerRZ_Rpower by lra. unfold Rpower. apply ln_exp.
Qed.

Lemma ln_le (x y : R) : 0 < x -> x <= y -> ln x <= ln y.
Proof.
  intros Hx [Hlt | ->]; [| lra]. left. now apply ln_increasing.
Qed.

Lemma powerRZ_2_pos (e : Z) : 0 < powerRZ 2 e.
Proof. apply powerRZ_lt. lra. Qed.

Lemma exponent_unique (x : R) (e : Z) :
  powerRZ 2 e <= Rabs x < powerRZ 2 (e + 1) -> Modelled.exponent x = e.
Proof.
  intros [Hlo Hhi]. unfold Modelled.exponent. symmetry. apply Int_part_spec.
  pose proof ln_2_pos as H2. pose proof (powerRZ_2_pos e) as He.
  assert (Hl : IZR e * ln 2 <= ln (Rabs x)).
  { rewrite <- ln_powerRZ_2. apply ln_le; assumption. }
  assert (Hh : ln (Rabs x) < IZR (e + 1) * ln 2).
  { rewrite <- ln_powerRZ_2. apply ln_increasing; lra. }
  rewrite plus_IZR in Hh.
  split.
  - apply Rmult_lt_reg_r with (ln 2); [exact H2 |].
    unfold Rdiv. rewrite Rmult_minus_distr_r, Rmult_assoc, Rinv_l by lra. lra.
  - apply Rmult_le_reg_r with (ln 2); [exact H2 |].
    unfold Rdiv. rewrite Rmult_assoc, Rinv_l by lra. lra.
Qed.

Lemma exponent_below (x : R) (n : Z) :
  x <> 0 -> Rabs x < powerRZ 2 n -> (Modelled.exponent x < n)%Z.
Proof.
  intros Hx Hlt. unfold Modelled.exponent.
  pose proof ln_2_pos as H2.
  assert (Hp : 0 < Rabs x) by now apply Rabs_pos_lt.
  assert (Hh : ln (Rabs x) < IZR n * ln 2).
  { rewrite <- ln_powerRZ_2. now apply ln_increasing. }
  destruct (base_Int_part (ln (Rabs x) / ln 2)) as [Hb _].
  apply lt_IZR. eapply Rle_lt_trans; [exact Hb |].
  apply Rmult_lt_reg_r with (ln 2); [exact H2 |].
  unfold Rdiv. rewrite Rmult_assoc, Rinv_l by lra. lra.
Qed.

Lemma powerRZ_2_nonneg (k : Z) : (0 <= k)%Z -> powerRZ 2 k = IZR (2 ^ k).
Proof.
  intros Hk. rewrite <- (Z2Nat.id k Hk) at 1.
  rewrite <- pow_powerRZ, pow_IZR. now rewrite Z2Nat.id.
Qed.

Lemma Int_part_IZR (z : Z) : Int_part (IZR z) = z.
Proof. symmetry. apply Int_part_spec. lra. Qed.

Lemma nearest_even_IZR (z : Z) : Modelled.nearest_even (IZR z) = z.
Proof.
  unfold Modelled.nearest_even. rewrite Int_part_IZR.
  destruct (Rlt_dec (IZR z - IZR z) (1 / 2)); [reflexivity | lra].
Qed.

(** An integer below 2^53 in absolute value is a double. *)
Lemma round64_IZR (z : Z) : (Z.abs z < 2 ^ 53)%Z -> Modelled.round64 (IZR z) = IZR z.
Proof.
  intros Hz. unfold Modelled.round64.
  destruct (Req_dec_T (IZR z) 0) as [E | Hne]; [now rewrite E |].
  cbv zeta.
  assert (He : (Modelled.exponent (IZR z) < 53)%Z).
  { apply exponent_below; [exact Hne |].
    rewrite powerRZ_2_nonneg by lia. rewrite <- abs_IZR. now apply IZR_lt. }
  set (e := Modelled.exponent (IZR z)) in *.
  set (k := (52 - e)%Z).
  assert (Hu : powerRZ 2 (e - 52) = / IZR (2 ^ k)).
  { replace (e - 52)%Z with (- k)%Z by (unfold k; lia).
    rewrite powerRZ_neg', powerRZ_2_nonneg by (unfold k; lia). reflexivity. }
  assert (Hp : IZR (2 ^ k) <> 0).
  { apply not_0_IZR. apply Z.pow_nonzero; unfold k; lia. }
  rewrite Hu. unfold Rdiv. rewrite Rinv_inv, <- mult_IZR, nearest_even_IZR.
  rewrite mult_IZR, Rmult_assoc, Rinv_r by exact Hp. ring.
Qed.

(** A tie goes to the even neighbour: 10^16 + 3 is half way between the
    doubles 10^16 + 2 and 10^16 + 4. *)
Lemma round64_tie :
  Modelled.round64 10000000000000003 = 10000000000000004.
Proof.
  unfold Modelled.round64.
  destruct (Req_dec_T 10000000000000003 0) as [E | _]; [lra |].
  cbv zeta.
  assert (He : Modelled.exponent 10000000000000003 = 53%Z).
  { apply exponent_unique. rewrite Rabs_pos_eq by lra.
    rewrite !powerRZ_2_nonneg by lia.
    split; [apply IZR_le | apply IZR_lt]; reflexivity || lia. }
  rewrite He. change (53 - 52)%Z with 1%Z.
  rewrite (powerRZ_1 2 : powerRZ 2 1 = 2).
  assert (Hn : Modelled.nearest_even (10000000000000003 / 2) = 5000000000000002%Z).
  { unfold Modelled.nearest_even.
    assert (Hi : Int_part (10000000000000003 / 2) = 5000000000000001%Z)
      by (symmetry; apply Int_part_spec; lra).
    rewrite Hi.
    destruct (Rlt_dec _ _) as [H | _]; [lra |].
    destruct (Rlt_dec _ _) as [H | _]; [lra |].
    reflexivity. }
  rewrite Hn. lra.
Qed.


(** Sums and differences of integers that stay below 2^53 are exact. *)
Lemma float_add_IZR (a b c : Z) :
  (a + b)%Z = c -> (Z.abs c < 2 ^ 53)%Z ->
  @float_add modelled (IZR a) (IZR b) = IZR c.
Proof.
  intros <- H. cbn [float_add modelled]. unfold Modelled.float_add.
  rewrite <- plus_IZR. now apply round64_IZR.
Qed.

Lemma float_sub_IZR (a b c : Z) :
  (a - b)%Z = c -> (Z.abs c < 2 ^ 53)%Z ->
  @float_sub modelled (IZR a) (IZR b) = IZR c.
Proof.
  intros <- H. cbn [float_sub modelled]. unfold Modelled.float_sub.
  rewrite <- minus_IZR. now apply round64_IZR.
Qed.

(** Evaluates the sums and differences of integer literals. *)
Ltac float_eval :=
  repeat match goal with
    | |- context [@float_add modelled (IZR ?a) (IZR ?b)] =>
        let c := eval vm_compute in (a + b)%Z in
        rewrite (float_add_IZR a b c eq_refl eq_refl)
    | |- context [@float_sub modelled (IZR ?a) (IZR ?b)] =>
        let c := eval vm_compute in (a - b)%Z in
        rewrite (float_sub_IZR a b c eq_refl eq_refl)
    end.

(** ** Validation comes first *)

Section Validation.

Context {ext : Externals}.

Lemma validation_error_raised ts scores start T s e :
  check_conditions ts scores start = Raise e ->
  plot_learning_curve ts scores start T s = (Raise e, s).
Proof.
  intros H. unfold plot_learning_curve. now rewrite H.
Qed.

Lemma validation_error_inv ts scores start T s e :
  fst (plot_learning_curve ts scores start T s) = Raise e ->
  ~ late_error e ->
  check_conditions ts scores start = Raise e.
Proof.
  intros H Hl.
  destruct (check_conditions ts scores start) as [[] | e'] eqn:Hchk.
  - exfalso. apply Hl.
    exact (plot_learning_curve_late ts scores start T Hchk s e H).
  - rewrite (validation_error_raised _ _ _ T s _ Hchk) in H.
    cbn in H. now inversion H.
Qed.

End Validation.

(** Runs [check_conditions] on lists of concrete numbers. *)
Ltac run_check :=
  unfold check_conditions, check_at, item;
  cbn [length Nat.eqb negb seq for_range Nat.ltb Nat.leb Nat.sub Nat.add
       nth andb];
  Rcompare;
  cbn [length Nat.eqb negb seq for_range Nat.ltb Nat.leb Nat.sub Nat.add
       nth andb];
  try reflexivity.

(** C6 (amended).  For timestamps and scores of equal length, the call
    raises [NonMonotonicTimestamps] if and only if some adjacent pair is
    out of order ([timestamps[i] > timestamps[i+1]]) and no timestamp
    before index [i] is earlier than [start_time]: the loop of
    [check_conditions] tests, at each index in turn, the order of the pair
    and then the start time, and stops at the first failure.  The error
    is raised on the sequences as given, before truncation, transform or
    any change of state, and carries the two values and the indices
    [(i, i+1)] of the first pair out of order. *)
Theorem nonmonotonic_first_failure {ext : Externals}
  (ts scores : list R) (start T : R) (s : state) :
  length ts = length scores ->
  ((exists a b i j,
       fst (plot_learning_curve ts scores start T s)
       = Raise (NonMonotonicTimestamps a b i j))
   <-> (exists i, (i + 1 < length ts)%nat /\ item ts i > item ts (i + 1)
                  /\ forall k, (k < i)%nat -> start <= item ts k))
  /\ (forall a b i j,
         fst (plot_learning_curve ts scores start T s)
         = Raise (NonMonotonicTimestamps a b i j) ->
         plot_learning_curve ts scores start T s
         = (Raise (NonMonotonicTimestamps a b i j), s)
         /\ check_conditions ts scores start
            = Raise (NonMonotonicTimestamps a b i j)
         /\ j = (i + 1)%nat /\ a = item ts i /\ b = item ts j /\ a > b
         /\ forall k, (k < i)%nat -> item ts k <= item ts (k + 1)).
Proof.
  intros Hlen. split; [split |].
  - intros (a & b & i & j & H).
    apply validation_error_inv in H; [| exact (fun f => f)].
    apply check_conditions_nonmonotonic_iff in H.
    destruct H as (_ & -> & Hj & -> & -> & Hd & Hk).
    exists i. split; [exact Hj |]. split; [lra |].
    intros k Hk'. apply (Hk k Hk').
  - intros (i & Hi & Hd & Hs).
    destruct (first_descent ts (i + 1)) as [Hall | (k & Hk & Hdk & Hl)].
    + specialize (Hall i ltac:(lia)). lra.
    + exists (item ts k), (item ts (k + 1)), k, (k + 1)%nat.
      rewrite (validation_error_raised ts scores start T s
                 (NonMonotonicTimestamps (item ts k) (item ts (k + 1))
                    k (k + 1)));
        [reflexivity |].
      apply check_conditions_nonmonotonic_iff.
      repeat split; try (assumption || reflexivity || lia).
      * apply Hl. assumption.
      * apply Hs. lia.
  - intros a b i j H.
    apply validation_error_inv in H; [| exact (fun f => f)].
    split; [exact (validation_error_raised _ _ _ T s _ H) |].
    split; [exact H |].
    apply check_conditions_nonmonotonic_iff in H.
    destruct H as (_ & -> & Hj & -> & -> & Hd & Hk).
    repeat split; try (reflexivity || lra).
    intros k Hk'. apply (Hk k Hk').
Qed.

(** The trace of the monotonicity example: the pair at indices (1, 2). *)
Lemma nonmonotonic_first_failure_witness :
  let ts := [0; 5; 3] in
  let scores := [0; 1 / 10; 1 / 5] in
  length ts = length scores
  /\ fst (plot_learning_curve ts scores 0 7200 PlotAlc_default)
     = Raise (NonMonotonicTimestamps 5 3 1 2).
Proof.
  intros ts scores. split; [reflexivity |].
  destruct (nonmonotonic_first_failure ts scores 0 7200 PlotAlc_default
              eq_refl) as [[_ Hex] Hrep].
  destruct Hex as (a & b & i & j & H).
  - exists 1%nat. split; [cbn; lia |]. split; [unfold item; cbn; lra |].
    intros k Hk. assert (k = 0%nat) as -> by lia. unfold item; cbn; lra.
  - rewrite H. destruct (Hrep a b i j H) as (_ & Hc & _).
    assert (Hc' : check_conditions ts scores 0
                  = Raise (NonMonotonicTimestamps 5 3 1 2))
      by (subst ts scores; run_check).
    rewrite Hc in Hc'. now inversion Hc'.
Defined.

(** A pair out of order at indices (1, 2), and yet the error is the one
    of the start time at index 0. *)
Lemma nonmonotonic_counterexample :
  let ts := [-1; 5; 3] in
  let scores := [0; 1 / 10; 1 / 5] in
  length ts = length scores
  /\ (exists i, (i + 1 < length ts)%nat /\ item ts i > item ts (i + 1))
  /\ plot_learning_curve ts scores 0 7200 PlotAlc_default
     = (Raise (TimestampBeforeStart (-1) 0 0), PlotAlc_default).
Proof.
  intros ts scores. split; [reflexivity |]. split.
  - exists 1%nat. split; [cbn; lia | unfold item; cbn; lra].
  - apply validation_error_raised. subst ts scores. run_check.
Qed.

(** ** Truncation *)

Lemma nondecreasing_tail a ts : nondecreasing (a :: ts) -> nondecreasing ts.
Proof.
  intros H i Hi. specialize (H (S i)). cbn [length] in H.
  unfold item in *. cbn [nth Nat.add] in H. apply H. lia.
Qed.

Lemma nondecreasing_head a ts :
  nondecreasing (a :: ts) -> List.Forall (fun t => a <= t) ts.
Proof.
  revert a. induction ts as [| b ts IH]; intros a H; constructor.
  - exact (H 0%nat ltac:(cbn; lia)).
  - pose proof (H 0%nat ltac:(cbn; lia)) as Hab.
    unfold item in Hab. cbn in Hab.
    eapply List.Forall_impl; [| exact (IH b (nondecreasing_tail _ _ H))].
    cbn. intros t Ht. lra.
Qed.

Lemma filter_over_budget (B : R) (ts : list R) :
  List.Forall (fun t => B < t) ts ->
  List.filter (fun t => Rleb t B) ts = [].
Proof.
  induction 1 as [| t ts Ht _ IH]; [reflexivity |].
  cbn [List.filter]. now rewrite Rleb_false.
Qed.

Lemma filter_pairs_over_budget (B : R) (ts scores : list R) :
  List.Forall (fun t => B < t) ts ->
  List.filter (fun p => Rleb (fst p) B) (combine ts scores) = [].
Proof.
  intros H. revert scores.
  induction H as [| t ts Ht _ IH]; intros scores; [reflexivity |].
  destruct scores; [reflexivity |].
  cbn [combine List.filter fst]. rewrite Rleb_false by exact Ht. apply IH.
Qed.

Section Retained.

Context {ext : Externals}.

Lemma retained_is_prefix ts start T :
  nondecreasing ts ->
  retained_timestamps ts start T
  = firstn (length (retained_timestamps ts start T)) ts.
Proof.
  unfold retained_timestamps. induction ts as [| a ts IH]; intros H.
  - reflexivity.
  - cbn [List.filter]. destruct (Rleb_spec a (float_add T start)) as [Ha | Ha].
    + cbn [length firstn]. f_equal. apply IH.
      exact (nondecreasing_tail _ _ H).
    + rewrite filter_over_budget; [reflexivity |].
      eapply List.Forall_impl; [| exact (nondecreasing_head _ _ H)].
      cbn. intros t Ht. lra.
Qed.

Lemma retained_pairs ts scores start T :
  nondecreasing ts ->
  length ts = length scores ->
  combine (retained_timestamps ts start T)
          (retained_scores ts scores start T)
  = List.filter (fun p => Rleb (fst p) (float_add T start))
                (combine ts scores).
Proof.
  unfold retained_scores, retained_timestamps.
  revert scores. induction ts as [| a ts IH]; intros scores H Hlen.
  - reflexivity.
  - destruct scores as [| y scores]; [discriminate |].
    cbn [List.filter combine fst].
    destruct (Rleb_spec a (float_add T start)) as [Ha | Ha].
    + cbn [length firstn combine]. f_equal.
      apply IH; [exact (nondecreasing_tail _ _ H) | now injection Hlen].
    + cbn [length firstn combine].
      assert (Hall : List.Forall (fun t => float_add T start < t) ts).
      { eapply List.Forall_impl; [| exact (nondecreasing_head _ _ H)].
        cbn. intros t Ht. lra. }
      rewrite (filter_over_budget _ _ Hall).
      now rewrite (filter_pairs_over_budget _ _ scores Hall).
Qed.

Lemma retained_all_within ts start T i :
  (i < length (retained_timestamps ts start T))%nat ->
  item (retained_timestamps ts start T) i <= float_add T start.
Proof.
  intros Hi.
  assert (H : List.Forall (fun t => t <= float_add T start)
                (retained_timestamps ts start T)).
  { apply List.Forall_forall. intros t Ht.
    apply List.filter_In in Ht. destruct Ht as [_ Ht].
    destruct (Rleb_spec t (float_add T start)); [assumption | discriminate]. }
  rewrite List.Forall_forall in H. apply H. unfold item. now apply List.nth_In.
Qed.

Lemma retained_all ts start T :
  length (retained_timestamps ts start T) = length ts ->
  retained_timestamps ts start T = ts.
Proof.
  unfold retained_timestamps. induction ts as [| a ts IH]; [reflexivity |].
  cbn [List.filter]. destruct (Rleb a (float_add T start)); cbn [length]; intros H.
  - f_equal. apply IH. lia.
  - pose proof (List.filter_length_le (fun t => Rleb t (float_add T start)) ts). lia.
Qed.

Lemma first_dropped ts start T :
  nondecreasing ts ->
  (length (retained_timestamps ts start T) < length ts)%nat ->
  float_add T start < item ts (length (retained_timestamps ts start T)).
Proof.
  unfold retained_timestamps. induction ts as [| a ts IH]; intros H Hlt.
  - cbn in Hlt. lia.
  - cbn [List.filter] in *. destruct (Rleb_spec a (float_add T start)) as [Ha | Ha].
    + cbn [length] in *. unfold item in *. cbn [nth].
      apply IH; [exact (nondecreasing_tail _ _ H) | lia].
    + rewrite filter_over_budget.
      * unfold item. cbn. lra.
      * eapply List.Forall_impl; [| exact (nondecreasing_head _ _ H)].
        cbn. intros t Ht. lra.
Qed.

Lemma plot_learning_curve_logger ts scores start T s :
  check_conditions ts scores start = Ok tt ->
  logger (snd (plot_learning_curve ts scores start T s))
  = logger s ++ truncation_warning ts start T.
Proof.
  intros Hchk. unfold plot_learning_curve. rewrite Hchk.
  unfold lift at 1, bind at 1. destruct s as [slf p lg].
  step (truncate_ok ts scores start T slf p lg
          (check_conditions_length _ _ _ Hchk)).
  match goal with
  | |- logger (snd (?m ?s)) = _ =>
      transitivity (logger s); [| reflexivity];
      generalize s; change (keeps logger m)
  end.
  expose. keeps_steps.
Qed.

End Retained.

(** C5.  When validation passes, the truncation never raises and keeps
    exactly the (timestamp, score) pairs whose timestamp does not exceed
    [time_budget + start_time], the sum as line 98 computes it on floats
    ([float_add]; the sum of the reals where that is a float): the kept
    sequences are index-paired and of equal length.  If a pair was
    dropped, one warning is logged and it names the first dropped index
    [n] (the timestamp at [n] exceeds the budget, those before it do
    not); if none was dropped nothing is logged and the sequences are
    unchanged.  The call goes on with the kept sequences: its log is the
    old one followed by that warning, it raises no validation error, and
    the curve of a call that returns is built from the kept pairs. *)
Theorem truncation_policy {ext : Externals}
  (ts scores : list R) (start T : R) (s : state) :
  check_conditions ts scores start = Ok tt ->
  let kept_t := retained_timestamps ts start T in
  let kept_s := retained_scores ts scores start T in
  let n := length kept_t in
  truncate ts scores start T s
  = (Ok (kept_t, kept_s),
     State (self s) (plt s) (logger s ++ truncation_warning ts start T))
  /\ combine kept_t kept_s
     = List.filter (fun p => Rleb (fst p) (float_add T start))
                   (combine ts scores)
  /\ (float_add T start = T + start ->
      combine kept_t kept_s
      = List.filter (fun p => Rleb (fst p) (T + start)) (combine ts scores))
  /\ length kept_s = n
  /\ ((n < length ts)%nat ->
      truncation_warning ts start T = [n]
      /\ item ts n > float_add T start
      /\ forall i, (i < n)%nat -> item ts i <= float_add T start)
  /\ (n = length ts ->
      truncation_warning ts start T = [] /\ kept_t = ts /\ kept_s = scores)
  /\ (n <= length ts)%nat
  /\ logger (snd (plot_learning_curve ts scores start T s))
     = logger s ++ truncation_warning ts start T
  /\ (forall e, fst (plot_learning_curve ts scores start T s) = Raise e ->
                late_error e)
  /\ (forall c,
         transform (self s) = None ->
         choice_of (method (self s)) = Some c ->
         own_figure_blank s = true ->
         kwargs (self s) !! "drawstyle" = None ->
         matplotlib_accepts (self s) ->
         fst (plot_learning_curve ts scores start T s)
         = Ok (auc_func c
                 ([0] ++ List.map (fun t => default_transform T (float_sub t start))
                                  kept_t ++ [1])
                 ([0] ++ kept_s ++ [List.last kept_s 0]),
               length (figures (after_clear s)))).
Proof.
  intros Hchk kept_t kept_s n.
  pose proof (proj1 (check_conditions_ok_iff _ _ _) Hchk) as (Hlen & Hmono & _).
  pose proof (retained_length_le ts start T) as Hle. fold kept_t n in Hle.
  assert (Hn : length kept_s = n).
  { unfold kept_s, retained_scores. fold kept_t n.
    rewrite List.length_firstn. lia. }
  split; [destruct s; now apply truncate_ok |].
  split; [now apply retained_pairs |].
  split; [intros <-; now apply retained_pairs |].
  split; [exact Hn |].
  split; [| split; [| split; [exact Hle | split; [| split]]]].
  - intros Hlt. split; [| split].
    + unfold truncation_warning. fold kept_t n.
      now rewrite (proj2 (Nat.ltb_lt _ _) Hlt).
    + now apply first_dropped.
    + intros i Hi.
      pose proof (retained_all_within ts start T i Hi) as Hw.
      rewrite (retained_is_prefix ts start T Hmono) in Hw. fold kept_t n in Hw.
      unfold item in *. now rewrite List.nth_firstn, (proj2 (Nat.ltb_lt _ _) Hi)
        in Hw.
  - intros Heq. split; [| split].
    + unfold truncation_warning. fold kept_t n.
      now rewrite Heq, Nat.ltb_irrefl.
    + now apply retained_all.
    + unfold kept_s, retained_scores. fold kept_t n.
      rewrite Heq, Hlen. apply List.firstn_all.
  - now apply plot_learning_curve_logger.
  - intros e. now apply plot_learning_curve_late.
  - intros c Htr Hc Hb Hkw Hmpl.
    now rewrite (plot_learning_curve_ok ts scores start T s c
                   Hchk Htr Hc Hb Hkw Hmpl).
Qed.

(** The trace of the truncation example: two observations kept, the
    warning names index 2. *)
Lemma truncation_policy_witness :
  let ts := [10; 100; 9000] in
  let scores := [1 / 10; 1 / 2; 9 / 10] in
  check_conditions ts scores 0 = Ok tt
  /\ truncate ts scores 0 7200 PlotAlc_default
     = (Ok ([10; 100], [1 / 10; 1 / 2]),
        State (self PlotAlc_default) (plt PlotAlc_default) [2%nat])
  /\ logger (snd (plot_learning_curve ts scores 0 7200 PlotAlc_default))
     = [2%nat].
Proof.
  cbv zeta.
  assert (H : check_conditions [10; 100; 9000] [1 / 10; 1 / 2; 9 / 10] 0
              = Ok tt) by run_check.
  assert (Ht : retained_timestamps [10; 100; 9000] 0 7200 = [10; 100])
    by (unfold retained_timestamps; cbn [List.filter]; float_eval; Rcompare;
        reflexivity).
  destruct (truncation_policy [10; 100; 9000] [1 / 10; 1 / 2; 9 / 10] 0 7200
              PlotAlc_default H)
    as (Htr & _ & _ & _ & _ & _ & _ & Hlog & _).
  split; [exact H |].
  unfold retained_scores, truncation_warning in Htr, Hlog.
  rewrite Ht in Htr, Hlog. split; [exact Htr | exact Hlog].
Defined.

(** Where the sum is not a float the bound is its rounding: with
    [start_time = 10^16] and [time_budget = 3] the sum rounds to
    [10^16 + 4], and an observation at that time is kept without a
    warning. *)
Lemma rounded_budget_keeps :
  let t := 10000000000000004 in
  let start := 10000000000000000 in
  check_conditions [t] [1 / 2] start = Ok tt
  /\ float_add 3 start = t
  /\ retained_timestamps [t] start 3 = [t]
  /\ truncation_warning [t] start 3 = [].
Proof.
  intros t start.
  assert (E : float_add 3 start = t).
  { cbn [float_add modelled]. unfold Modelled.float_add, start, t.
    replace (3 + 10000000000000000) with 10000000000000003 by lra.
    apply round64_tie. }
  assert (Hk : retained_timestamps [t] start 3 = [t]).
  { unfold retained_timestamps. rewrite E. cbn [List.filter].
    rewrite Rleb_true by lra. reflexivity. }
  split; [unfold t, start; run_check |]. split; [exact E |].
  split; [exact Hk |].
  unfold truncation_warning. rewrite Hk. reflexivity.
Qed.

(** ** The modelled transform and quadratures *)

Lemma transform_time_start (T t0 : R) : Modelled.transform_time 0 T t0 = 0.
Proof.
  unfold Modelled.transform_time.
  replace (1 + 0 / t0) with 1 by (unfold Rdiv; ring).
  rewrite ln_1. unfold Rdiv. ring.
Qed.








(** ** The plotter with default arguments *)

Lemma default_transform_none : transform (self PlotAlc_default) = None.
Proof. reflexivity. Qed.

Lemma default_blank : own_figure_blank PlotAlc_default = true.
Proof. reflexivity. Qed.

Lemma default_no_drawstyle :
  kwargs (self PlotAlc_default) !! "drawstyle" = None.
Proof. reflexivity. Qed.

Lemma default_choice :
  choice_of (method (self PlotAlc_default))
  = Some (MethodChoice "steps-post" (Some "post") Modelled.auc_step).
Proof. reflexivity. Qed.

Lemma default_figures : figures (after_clear PlotAlc_default) = [[]].
Proof. reflexivity. Qed.

(** Checks the keywords and the colour of a concrete plotter against the
    modelled matplotlib. *)
Ltac accepted :=
  split; [| split];
  [ intros ?; vm_compute; reflexivity
  | intros _; reflexivity
  | intros ?; vm_compute; reflexivity ].

Lemma default_accepted : matplotlib_accepts (self PlotAlc_default).
Proof. accepted. Qed.

Lemma choice_of_step {ext : Externals} :
  choice_of "step" = Some (MethodChoice "steps-post" (Some "post") auc_step).
Proof. reflexivity. Qed.

Lemma choice_of_trapez {ext : Externals} :
  choice_of "trapez" = Some (MethodChoice "default" None auc).
Proof. reflexivity. Qed.

(** Evaluates the truncation and the curve on concrete numbers. *)
Ltac run_curve :=
  unfold curve_X, curve_Y, retained_scores, retained_timestamps,
    default_transform;
  cbn [List.filter]; float_eval; Rcompare;
  cbn [List.filter List.map length firstn List.last app]; float_eval.

(** C1 (amended).  For every valid input the ALC returned under
    [method = "step"] is [auc_step X Y] and under [method = "trapez"] it
    is [auc X Y], where [X] and [Y] are the whole curve, the final point
    appended at [X = 1] included ([X] ends with 1 and [Y] with the last
    score again): the area extends to the end of the time budget.  The
    call returns when it gets as far as the drawing (default transform,
    blank own figure) and matplotlib accepts what it is passed. *)
Theorem alc_over_full_curve {ext : Externals}
  (ts scores : list R) (start T : R) (s : state) :
  check_conditions ts scores start = Ok tt ->
  transform (self s) = None ->
  own_figure_blank s = true ->
  kwargs (self s) !! "drawstyle" = None ->
  matplotlib_accepts (self s) ->
  let X := curve_X (default_transform T) ts start T in
  let Y := curve_Y ts scores start T in
  (method (self s) = "step" ->
   fst (plot_learning_curve ts scores start T s)
   = Ok (auc_step X Y, length (figures (after_clear s))))
  /\ (method (self s) = "trapez" ->
      fst (plot_learning_curve ts scores start T s)
      = Ok (auc X Y, length (figures (after_clear s))))
  /\ List.last X 0 = 1
  /\ List.last Y 0
     = List.last (0 :: retained_scores ts scores start T) 0
  /\ length X = (length (retained_timestamps ts start T) + 2)%nat.
Proof.
  intros Hchk Htr Hb Hkw Hmpl X Y. split; [| split; [| split; [| split]]].
  - intros Hm.
    rewrite (plot_learning_curve_ok ts scores start T s
               (MethodChoice "steps-post" (Some "post") auc_step)
               Hchk Htr ltac:(rewrite Hm; apply choice_of_step) Hb Hkw Hmpl).
    reflexivity.
  - intros Hm.
    rewrite (plot_learning_curve_ok ts scores start T s
               (MethodChoice "default" None auc)
               Hchk Htr ltac:(rewrite Hm; apply choice_of_trapez) Hb Hkw
               Hmpl).
    reflexivity.
  - unfold X, curve_X. rewrite app_assoc. apply List.last_last.
  - unfold Y, curve_Y. cbv zeta. rewrite app_assoc, List.last_last.
    destruct (retained_scores ts scores start T); reflexivity.
  - unfold X, curve_X. rewrite !List.length_app, List.length_map. cbn. lia.
Qed.

(** One observation at the start time. *)
Lemma alc_over_full_curve_witness :
  check_conditions [0] [1] 0 = Ok tt
  /\ fst (plot_learning_curve [0] [1] 0 7200 PlotAlc_default)
     = Ok (Modelled.auc_step
             (curve_X (default_transform 7200) [0] 0 7200)
             (curve_Y [0] [1] 0 7200), 1%nat).
Proof.
  assert (H : check_conditions [0] [1] 0 = Ok tt) by run_check.
  split; [exact H |].
  assert (Hm : matplotlib_accepts (self PlotAlc_default)) by accepted.
  exact (proj1 (alc_over_full_curve [0] [1] 0 7200 PlotAlc_default H
                  eq_refl eq_refl eq_refl Hm) eq_refl).
Defined.

(** One observation of score 1 at the start time: the ALC returned is 1
    under both methods, the area of the curve without its final point
    is 0. *)
Lemma alc_excluding_endpoint_counterexample :
  let X := curve_X (default_transform 7200) [0] 0 7200 in
  let Y := curve_Y [0] [1] 0 7200 in
  fst (plot_learning_curve [0] [1] 0 7200 (PlotAlc_with "step" None))
  = Ok (1, 1%nat)
  /\ Modelled.auc_step (but_last X) (but_last Y) = 0
  /\ fst (plot_learning_curve [0] [1] 0 7200 (PlotAlc_with "trapez" None))
     = Ok (1, 1%nat)
  /\ Modelled.auc (but_last X) (but_last Y) = 0.
Proof.
  assert (H : check_conditions [0] [1] 0 = Ok tt) by run_check.
  assert (HX : curve_X (default_transform 7200) [0] 0 7200 = [0; 0; 1]).
  { run_curve. cbn [transform_time modelled].
    now rewrite transform_time_start. }
  assert (HY : curve_Y [0] [1] 0 7200 = [0; 1; 1]) by (run_curve; reflexivity).
  cbv zeta. rewrite HX, HY. split; [| split; [| split]].
  - rewrite (plot_learning_curve_ok [0] [1] 0 7200 (PlotAlc_with "step" None)
               _ H eq_refl choice_of_step eq_refl eq_refl
               ltac:(accepted)).
    cbn [fst auc_func auc_step modelled]. rewrite HX, HY.
    do 2 f_equal. cbn [Modelled.auc_step]. lra.
  - cbn. lra.
  - rewrite (plot_learning_curve_ok [0] [1] 0 7200
               (PlotAlc_with "trapez" None)
               _ H eq_refl choice_of_trapez eq_refl eq_refl
               ltac:(accepted)).
    cbn [fst auc_func auc modelled]. rewrite HX, HY.
    do 2 f_equal. cbn [Modelled.auc]. lra.
  - cbn. lra.
Qed.




(** C4.  For every validated and truncated trace, the curve given to the
    quadrature and to the drawing calls is
    [X = [0] ++ transform(kept relative timestamps) ++ [1]] and
    [Y = [0] ++ kept scores ++ [last kept score]]: it starts at the origin
    and ends with a point that repeats the final score at [X = 1] (the
    origin's 0 when no score is kept).  The relative timestamps are the
    differences [t - start_time] of line 116, and the drawing calls are
    made with keywords and a colour that matplotlib accepts. *)
Theorem curve_construction {ext : Externals}
  (ts scores : list R) (start T : R) (s : state) (c : method_choice) :
  check_conditions ts scores start = Ok tt ->
  transform (self s) = None ->
  choice_of (method (self s)) = Some c ->
  own_figure_blank s = true ->
  kwargs (self s) !! "drawstyle" = None ->
  matplotlib_accepts (self s) ->
  let kept_t := retained_timestamps ts start T in
  let kept_s := retained_scores ts scores start T in
  let X := [0] ++ List.map (fun t => transform_time (float_sub t start) T 60)
                           kept_t
               ++ [1] in
  let Y := [0] ++ kept_s ++ [List.last kept_s 0] in
  let alc := auc_func c X Y in
  let F := figures (after_clear s) in
  fst (plot_learning_curve ts scores start T s) = Ok (alc, length F)
  /\ figures (plt (snd (plot_learning_curve ts scores start T s)))
     = F ++ [[setup_ops (self s) (XlabelDefault (py_int T) (py_int 60))
                ++ draw_ops (self s) c X Y alc;
              twin_ops (default_transform T) T]]
  /\ (forall kept y, kept_s = kept ++ [y] -> Y = [0] ++ kept_s ++ [y])
  /\ (kept_s = [] -> X = [0; 1] /\ Y = [0; 0])
  /\ length X = length Y
  /\ (nth 0 X 1, nth 0 Y 1) = (0, 0)
  /\ (List.last X 0, List.last Y 1) = (1, List.last (0 :: kept_s) 1).
Proof.
  intros Hchk Htr Hc Hb Hkw Hmpl kept_t kept_s X Y alc F.
  pose proof (plot_learning_curve_ok ts scores start T s c Hchk Htr Hc Hb Hkw
                Hmpl)
    as Hok.
  cbv zeta in Hok. fold F in Hok.
  change (curve_X (default_transform T) ts start T) with X in Hok.
  change (curve_Y ts scores start T) with Y in Hok.
  fold alc in Hok.
  assert (Hlen : length kept_s = length kept_t).
  { unfold kept_s, retained_scores. fold kept_t.
    rewrite List.length_firstn.
    pose proof (retained_length_le ts start T) as Hle.
    pose proof (check_conditions_length _ _ _ Hchk) as Heq.
    fold kept_t in Hle. lia. }
  rewrite Hok. cbn [fst snd plt figures].
  split; [reflexivity |]. split; [reflexivity |].
  split; [| split; [| split; [| split]]].
  - intros kept y E. unfold Y. do 3 f_equal. rewrite E.
    apply List.last_last.
  - intros E. unfold X, Y.
    assert (Et : kept_t = []) by (destruct kept_t; [reflexivity |];
                                  rewrite E in Hlen; discriminate).
    rewrite E, Et. split; reflexivity.
  - unfold X, Y. rewrite !List.length_app, List.length_map. cbn. lia.
  - reflexivity.
  - unfold X, Y. rewrite !app_assoc, !List.last_last. f_equal.
    destruct kept_s as [| y l]; [reflexivity |].
    cbn [List.last]. clear. revert y. induction l as [| z l IH]; intros y.
    + reflexivity.
    + cbn [List.last] in *. apply IH.
Qed.

(** The trace of the truncation example. *)
Lemma curve_construction_witness :
  check_conditions [10; 100; 9000] [1 / 10; 1 / 2; 9 / 10] 0 = Ok tt
  /\ fst (plot_learning_curve [10; 100; 9000] [1 / 10; 1 / 2; 9 / 10] 0 7200
            PlotAlc_default)
     = Ok (Modelled.auc_step
             [0; Modelled.transform_time (float_sub 10 0) 7200 60;
              Modelled.transform_time (float_sub 100 0) 7200 60; 1]
             [0; 1 / 10; 1 / 2; 1 / 2], 1%nat).
Proof.
  assert (H : check_conditions [10; 100; 9000] [1 / 10; 1 / 2; 9 / 10] 0
              = Ok tt) by run_check.
  split; [exact H |].
  assert (Hm : matplotlib_accepts (self PlotAlc_default)) by accepted.
  destruct (curve_construction [10; 100; 9000] [1 / 10; 1 / 2; 9 / 10] 0 7200
              PlotAlc_default _ H eq_refl choice_of_step eq_refl eq_refl Hm)
    as (Hres & _).
  rewrite Hres.
  assert (Ht : retained_timestamps [10; 100; 9000] 0 7200 = [10; 100])
    by (unfold retained_timestamps; cbn [List.filter]; float_eval; Rcompare;
        reflexivity).
  unfold retained_scores. rewrite Ht. reflexivity.
Defined.

(** C10.  For empty timestamps and scores, validation passes, no
    truncation warning is logged and no validation error is raised; the
    curve given to the quadrature and to the drawing calls (of a plotter
    whose keywords and colour matplotlib accepts) is [X = [0; 1]],
    [Y = [0; 0]], and the area of this flat curve is 0 under both
    quadratures. *)
Theorem empty_trace {ext : Externals} (start T : R) (s : state) :
  check_conditions [] [] start = Ok tt
  /\ logger (snd (plot_learning_curve [] [] start T s)) = logger s
  /\ (forall e, fst (plot_learning_curve [] [] start T s) = Raise e ->
                late_error e)
  /\ (forall c,
         transform (self s) = None ->
         choice_of (method (self s)) = Some c ->
         own_figure_blank s = true ->
         kwargs (self s) !! "drawstyle" = None ->
         matplotlib_accepts (self s) ->
         fst (plot_learning_curve [] [] start T s)
         = Ok (auc_func c [0; 1] [0; 0], length (figures (after_clear s)))
         /\ exists ops twin,
             figures (plt (snd (plot_learning_curve [] [] start T s)))
             = figures (after_clear s)
               ++ [[ops ++ draw_ops (self s) c [0; 1] [0; 0]
                            (auc_func c [0; 1] [0; 0]); twin]])
  /\ Modelled.auc_step [0; 1] [0; 0] = 0
  /\ Modelled.auc [0; 1] [0; 0] = 0.
Proof.
  assert (H : check_conditions [] [] start = Ok tt) by reflexivity.
  split; [exact H |]. split; [| split; [| split; [| split]]].
  - rewrite (plot_learning_curve_logger [] [] start T s H).
    apply app_nil_r.
  - intros e. now apply plot_learning_curve_late.
  - intros c Htr Hc Hb Hkw Hmpl.
    rewrite (plot_learning_curve_ok [] [] start T s c H Htr Hc Hb Hkw Hmpl).
    split; [reflexivity |]. eexists _, _. reflexivity.
  - cbn. lra.
  - cbn. lra.
Qed.

(** The empty trace on [PlotAlc()]. *)
Lemma empty_trace_witness :
  fst (plot_learning_curve [] [] 0 7200 PlotAlc_default) = Ok (0, 1%nat).
Proof.
  destruct (empty_trace 0 7200 PlotAlc_default)
    as (_ & _ & _ & Hok & Hstep & _).
  destruct (Hok _ eq_refl choice_of_step eq_refl eq_refl
              ltac:(accepted)) as [Hres _].
  rewrite Hres. cbn [auc_func auc_step modelled]. rewrite Hstep. reflexivity.
Defined.

(** ** Locals that are never bound *)

Section Unbound.

Context {ext : Externals}.

Lemma new_figure_unbound slf xl T slf0 p lg :
  fst (new_figure slf None xl T (State slf0 p lg))
  = Raise (NameError "transform").
Proof.
  destruct p as [F c]. unfold new_figure, add_subplot, twiny.
  step (plt_figure_eq slf0 F c lg).
  step (add_axes_last slf0 F [] (Some (length F)) lg). cbn [app length fst].
  assert (Ht : when (show_title slf) (plt_title (task_name slf))
            (State slf0 (Pyplot (F ++ [[[]]]) (Some (length F))) lg)
          = (Ok tt,
             State slf0
               (Pyplot (F ++ [[if show_title slf
                               then [SetTitle (task_name slf)] else []]])
                       (Some (length F))) lg)).
  { destruct (show_title slf); [apply plt_title_new | reflexivity]. }
  step Ht.
  repeat (erewrite (bind_ok _ _ _ _ _ (ax_call_first _ _ _ _ _ _ _))).
  erewrite (bind_ok _ _ _ _ _ (add_axes_last _ _ _ _ _)).
  reflexivity.
Qed.

(** With a custom transform a validated call stops at a local that was
    never bound: [transform] (line 118 or 139) or [fig] (line 141). *)
Lemma custom_transform_error g ts scores start T s :
  check_conditions ts scores start = Ok tt ->
  transform (self s) = Some g ->
  exists v, fst (plot_learning_curve ts scores start T s) = Raise (NameError v)
            /\ (v = "transform" \/ v = "fig").
Proof.
  intros Hchk Htr.
  unfold plot_learning_curve.
  unfold lift at 1. rewrite Hchk. unfold bind at 1.
  destruct s as [slf p lg]. cbn [self logger] in *.
  step (truncate_ok ts scores start T slf p lg
          (check_conditions_length _ _ _ Hchk)).
  unfold get_self at 1. unfold bind at 1. cbn [self fst snd].
  rewrite Htr. cbn [fst snd].
  destruct (retained_timestamps ts start T) as [| t kept].
  2:{ exists "transform". split; [reflexivity | now left]. }
  cbn [List.map comprehension]. unfold ret at 1, bind at 1.
  pose proof (clear_eq (State slf p (lg ++ truncation_warning ts start T)))
    as Hclr.
  cbn [self logger] in Hclr. step Hclr.
  match goal with
  | |- context [bind (match fig slf with
                      | Some f => fig_axes f
                      | None => ret []
                      end) _ ?st] =>
      assert (Haxs : exists axs,
                 match fig slf with
                 | Some f => fig_axes f
                 | None => ret []
                 end st = (Ok axs, st))
        by (destruct (fig slf); eexists; reflexivity)
  end.
  destruct Haxs as [axs Haxs]. step Haxs.
  destruct (length axs =? 0)%nat.
  - exists "transform". split; [| now left].
    unfold bind at 1. unfold bind at 1.
    match goal with
    | |- context [new_figure ?a None ?b ?c (State ?d ?e ?f)] =>
        pose proof (new_figure_unbound a b c d e f) as Hnf;
        destruct (new_figure a None b c (State d e f)) as [r st']
    end.
    cbn [fst] in Hnf. subst r. reflexivity.
  - exists "fig". split; [reflexivity | now right].
Qed.

Lemma custom_transform_raises g ts scores start T s :
  transform (self s) = Some g ->
  exists e, fst (plot_learning_curve ts scores start T s) = Raise e.
Proof.
  intros Htr.
  destruct (check_conditions ts scores start) as [[] | e] eqn:Hchk.
  - destruct (custom_transform_error g ts scores start T s Hchk Htr)
      as (v & H & _).
    eexists; exact H.
  - exists e. now rewrite (validation_error_raised _ _ _ T s e Hchk).
Qed.

(** With the default transform and an own figure that still has axes, a
    validated call stops at the unbound local [fig] of line 141. *)
Lemma own_figure_not_blank
  (ts scores : list R) (start T : R) (s : state) :
  check_conditions ts scores start = Ok tt ->
  transform (self s) = None ->
  own_figure_blank s = false ->
  plot_learning_curve ts scores start T s
  = (Raise (NameError "fig"),
     State (self s) (after_clear s)
           (logger s ++ truncation_warning ts start T)).
Proof.
  intros Hchk Htr Hblank.
  unfold plot_learning_curve.
  unfold lift at 1. rewrite Hchk. unfold bind at 1.
  destruct s as [slf p lg]. cbn [self logger] in *.
  step (truncate_ok ts scores start T slf p lg
          (check_conditions_length _ _ _ Hchk)).
  unfold get_self at 1. unfold bind at 1. cbn [self fst snd].
  rewrite Htr. cbn [fst snd].
  assert (Hc : forall st : state,
     comprehension "transform" (Some (fun t => transform_time t T 60))
       (List.map (fun t => float_sub t start)
          (retained_timestamps ts start T)) st
     = (Ok (List.map (fun t => default_transform T (float_sub t start))
              (retained_timestamps ts start T)), st)).
  { intros st. unfold comprehension.
    rewrite List.map_map.
    destruct (retained_timestamps ts start T); reflexivity. }
  step (Hc (State slf p (lg ++ truncation_warning ts start T))).
  pose proof (clear_eq (State slf p (lg ++ truncation_warning ts start T)))
    as Hclr.
  cbn [self logger] in Hclr. step Hclr.
  rewrite (after_clear_logger slf p _ lg).
  unfold own_figure_blank in Hblank. cbn [self] in Hblank.
  destruct (fig slf) as [f |]; [| discriminate Hblank].
  unfold fig_axes at 1, get_plt at 1, bind at 1, bind at 1, ret at 1.
  cbn [plt]. rewrite Hblank. reflexivity.
Qed.

(** The three validation errors are not among the later ones. *)
Lemma check_conditions_error_kind ts scores start e :
  check_conditions ts scores start = Raise e -> ~ late_error e.
Proof.
  intros He Hl. unfold check_conditions in He.
  destruct (negb _); [inversion He; subst; exact Hl |].
  apply for_range_seq_raise in He. destruct He as (i & _ & He & _).
  unfold check_at in He.
  repeat case_match; inversion He; subst; exact Hl.
Qed.

End Unbound.

(** ** A method that is neither "step" nor "trapez" *)

Section InvalidMethod.

Context {ext : Externals}.



End InvalidMethod.




(** ** A custom transform *)

(** C7.  With the custom transform [lambda t: t / 7200], the call on
    [timestamps = [10]], [scores = [0.5]] raises [NameError] for the local
    [transform] at line 118 and leaves the state as it was: the supplied
    function is not applied.  No call on this plotter returns. *)
Theorem custom_transform_unbound :
  let s := PlotAlc_with "step" (Some (fun t => t / 7200)) in
  check_conditions [10] [1 / 2] 0 = Ok tt
  /\ plot_learning_curve [10] [1 / 2] 0 7200 s
     = (Raise (NameError "transform"), s)
  /\ (forall ts scores start T,
         exists e, fst (plot_learning_curve ts scores start T s) = Raise e).
Proof.
  intros s.
  assert (H : check_conditions [10] [1 / 2] 0 = Ok tt) by run_check.
  split; [exact H |]. split.
  - unfold plot_learning_curve.
    unfold lift at 1. rewrite H. unfold bind at 1.
    unfold truncate. cbn [List.filter]. float_eval. Rcompare. reflexivity.
  - intros ts scores start T.
    now apply (custom_transform_raises (fun t => t / 7200)).
Qed.

(** ** The keyword arguments across calls *)

Lemma default_call_ok (s : state) :
  transform (self s) = None ->
  method (self s) = "step" ->
  own_figure_blank s = true ->
  kwargs (self s) !! "drawstyle" = None ->
  matplotlib_accepts (self s) ->
  let c := MethodChoice "steps-post" (Some "post") Modelled.auc_step in
  let F := figures (after_clear s) in
  plot_learning_curve [] [] 0 7200 s
  = (Ok (0, length F),
     State (with_kwargs
              (connector_kwargs
                 (curve_kwargs (label_of (self s) 0) (kwargs (self s))))
              (self s))
           (Pyplot
              (F ++ [[setup_ops (self s)
                        (XlabelDefault (py_int 7200) (py_int 60))
                        ++ draw_ops (self s) c [0; 1] [0; 0] 0;
                      twin_ops (default_transform 7200) 7200]])
              (Some (length F)))
           (logger s)).
Proof.
  intros Htr Hm Hb Hkw Hmpl c F.
  rewrite (plot_learning_curve_ok [] [] 0 7200 s c eq_refl Htr
             ltac:(rewrite Hm; reflexivity) Hb Hkw Hmpl).
  assert (Ha : Modelled.auc_step [0; 1] [0; 0] = 0) by (cbn; lra).
  unfold curve_X, curve_Y, retained_scores, retained_timestamps.
  cbn [List.filter List.map length firstn List.last app auc_func c].
  rewrite Ha, app_nil_r. reflexivity.
Qed.

(** C8.  Two calls in a row on [PlotAlc()], each with an empty trace.
    Both return, and the first changes [self.kwargs] from the empty
    dictionary to linestyle "--", linewidth 1, marker [None], markersize
    3 (the other attributes are unchanged).  The first call draws its
    curve with marker "o" and its ALC label; the second finds "marker"
    set and draws its curve dashed and without markers. *)
Theorem kwargs_mutated_by_call :
  let s0 := PlotAlc_default in
  let s1 := snd (plot_learning_curve [] [] 0 7200 s0) in
  let s2 := snd (plot_learning_curve [] [] 0 7200 s1) in
  let c := MethodChoice "steps-post" (Some "post") Modelled.auc_step in
  fst (plot_learning_curve [] [] 0 7200 s0) = Ok (0, 1%nat)
  /\ fst (plot_learning_curve [] [] 0 7200 s1) = Ok (0, 2%nat)
  /\ kwargs (self s0) = ∅
  /\ kwargs (self s1)
     = <["linestyle" := PyStr "--"]>
         (<["linewidth" := PyInt 1]>
            (<["marker" := PyNone]> (<["markersize" := PyInt 3]> ∅)))
  /\ kwargs (self s1) <> kwargs (self s0)
  /\ settings s1 = settings s0
  /\ (exists setup twin kw,
         figures (plt s1) !! 1%nat
         = Some [setup ++ draw_ops (self s0) c [0; 1] [0; 0] 0; twin]
         /\ hd Legend (draw_ops (self s0) c [0; 1] [0; 0] 0)
            = Plot [0] [0] (Some "steps-post") kw
         /\ kw !! "marker" = Some (PyStr "o")
         /\ kw !! "linestyle" = None
         /\ kw !! "label" = Some (PyLabel (AlcLabel None 0)))
  /\ (exists setup twin kw,
         figures (plt s2) !! 2%nat
         = Some [setup ++ draw_ops (self s1) c [0; 1] [0; 0] 0; twin]
         /\ hd Legend (draw_ops (self s1) c [0; 1] [0; 0] 0)
            = Plot [0] [0] (Some "steps-post") kw
         /\ kw !! "marker" = Some PyNone
         /\ kw !! "linestyle" = Some (PyStr "--")).
Proof.
  intros s0 s1 s2 c.
  pose proof (default_call_ok s0 eq_refl eq_refl eq_refl eq_refl
                default_accepted) as H1.
  cbv zeta in H1. fold c in H1.
  assert (E1 : s1 = snd (plot_learning_curve [] [] 0 7200 s0)) by reflexivity.
  rewrite H1 in E1. cbn [snd] in E1.
  assert (Hk1 : kwargs (self s1)
     = <["linestyle" := PyStr "--"]>
         (<["linewidth" := PyInt 1]>
            (<["marker" := PyNone]> (<["markersize" := PyInt 3]> ∅)))).
  { rewrite E1. reflexivity. }
  assert (Hs1 : transform (self s1) = None /\ method (self s1) = "step"
                /\ own_figure_blank s1 = true
                /\ kwargs (self s1) !! "drawstyle" = None
                /\ figures (after_clear s1)
                   = [[]; []]).
  { rewrite E1. repeat split; reflexivity. }
  destruct Hs1 as (Ht1 & Hm1 & Hb1 & Hd1 & Hf1).
  assert (Ha1 : matplotlib_accepts (self s1)).
  { rewrite E1. cbn [self]. accepted. }
  pose proof (default_call_ok s1 Ht1 Hm1 Hb1 Hd1 Ha1) as H2.
  cbv zeta in H2. fold c in H2. rewrite Hf1 in H2.
  split; [rewrite H1; reflexivity |].
  split; [rewrite H2; reflexivity |].
  split; [reflexivity |].
  split; [exact Hk1 |].
  split.
  { rewrite Hk1. intros E.
    apply (f_equal (fun m : gmap string pyval => m !! "marker")) in E.
    discriminate E. }
  split; [apply plot_learning_curve_keeps_settings |].
  split.
  - eexists _, _, _. split; [rewrite E1; reflexivity |].
    split; [reflexivity |]. repeat split; reflexivity.
  - eexists _, _, _. split; [unfold s2; rewrite H2; reflexivity |].
    split; [reflexivity |]. rewrite Hk1. repeat split; reflexivity.
Qed.

(** ** The frame counter *)

Lemma calls_keep_settings {ext : Externals} (l : list call_args) (s : state) :
  settings (snd (calls l s)) = settings s.
Proof.
  revert s. induction l as [| a l IH]; intros s; [reflexivity |].
  cbn [calls snd]. rewrite IH. apply plot_learning_curve_keeps_settings.
Qed.

(** C9 (amended).  The frame counter is 0 after construction, and no
    call of [plot_learning_curve] changes it, whether the call returns or
    raises: after any number of calls it has the value it had before
    them. *)
Theorem frame_counter_stays {ext : Externals} :
  (forall method transform task_name area_color fill_area model_name
          clear_figure show_final_score show_title kwargs p log,
      cur_frame (self (__init__ method transform task_name area_color
                         fill_area model_name clear_figure show_final_score
                         show_title kwargs p log)) = 0%nat)
  /\ (forall ts scores start T s,
         cur_frame (self (snd (plot_learning_curve ts scores start T s)))
         = cur_frame (self s))
  /\ (forall l s, cur_frame (self (snd (calls l s))) = cur_frame (self s)).
Proof.
  split; [| split].
  - intros. destruct p. reflexivity.
  - intros ts scores start T s.
    exact (f_equal cur_frame
             (plot_learning_curve_keeps_settings ts scores start T s)).
  - intros l s. exact (f_equal cur_frame (calls_keep_settings l s)).
Qed.

(** One call that returns, and the counter is still 0. *)
Lemma frame_counter_counterexample :
  let r := plot_learning_curve [] [] 0 7200 PlotAlc_default in
  cur_frame (self PlotAlc_default) = 0%nat
  /\ fst r = Ok (0, 1%nat)
  /\ cur_frame (self (snd r)) = 0%nat
  /\ cur_frame (self (snd r)) <> 1%nat.
Proof.
  intros r. unfold r.
  rewrite (default_call_ok PlotAlc_default eq_refl eq_refl eq_refl eq_refl
             default_accepted).
  repeat split. discriminate.
Qed.

(** * Further properties of the code *)

(** ** The three validation errors and their order *)

(** X1.  The call raises the length error if and only if the two
    sequences differ in length.  It is then the first thing that happens:
    the error carries both lengths, whatever the timestamps are, and the
    plotter, the chart and the log are left as they were. *)
Theorem length_mismatch_first {ext : Externals}
  (ts scores : list R) (start T : R) (s : state) :
  ((exists n m, fst (plot_learning_curve ts scores start T s)
                = Raise (LengthMismatch n m))
   <-> length ts <> length scores)
  /\ (length ts <> length scores ->
      plot_learning_curve ts scores start T s
      = (Raise (LengthMismatch (length ts) (length scores)), s)).
Proof.
  assert (Hr : length ts <> length scores ->
               check_conditions ts scores start
               = Raise (LengthMismatch (length ts) (length scores))).
  { intros H. apply check_conditions_length_mismatch_iff. auto. }
  split; [split |].
  - intros (n & m & H).
    apply validation_error_inv in H; [| exact (fun f => f)].
    now apply check_conditions_length_mismatch_iff in H.
  - intros H. exists (length ts), (length scores).
    now rewrite (validation_error_raised _ _ _ T s _ (Hr H)).
  - intros H. exact (validation_error_raised _ _ _ T s _ (Hr H)).
Qed.

Lemma length_mismatch_first_witness :
  plot_learning_curve [3; 2; 1] [1 / 10; 1 / 5] 5 7200 PlotAlc_default
  = (Raise (LengthMismatch 3 2), PlotAlc_default).
Proof.
  apply (proj2 (length_mismatch_first [3; 2; 1] [1 / 10; 1 / 5] 5 7200
                  PlotAlc_default)).
  cbn. lia.
Defined.

(** X2.  The call raises the start-time error for index [i] exactly when
    the lengths agree, [timestamps[i] < start_time], the pair [(i, i+1)]
    is in order (or [i] is the last index) and every index before [i]
    passes both tests; the error carries that timestamp, [i] and
    [start_time]. *)
Theorem timestamp_before_start_first_failure {ext : Externals}
  (ts scores : list R) (start T : R) (s : state) (t : R) (i : nat) (st : R) :
  fst (plot_learning_curve ts scores start T s)
  = Raise (TimestampBeforeStart t i st)
  <-> length ts = length scores
      /\ (i < length ts)%nat /\ t = item ts i /\ st = start /\ t < start
      /\ ((i + 1 < length ts)%nat -> item ts i <= item ts (i + 1))
      /\ (forall k, (k < i)%nat ->
                    item ts k <= item ts (k + 1) /\ start <= item ts k).
Proof.
  rewrite <- check_conditions_before_start_iff. split.
  - intros H. apply validation_error_inv in H; [exact H | exact (fun f => f)].
  - intros H. now rewrite (validation_error_raised _ _ _ T s _ H).
Qed.

Lemma timestamp_before_start_first_failure_witness :
  fst (plot_learning_curve [-1; 2] [0; 1 / 2] 0 7200 PlotAlc_default)
  = Raise (TimestampBeforeStart (-1) 0 0).
Proof.
  apply (proj2 (timestamp_before_start_first_failure [-1; 2] [0; 1 / 2]
                  0 7200 PlotAlc_default (-1) 0 0)).
  split; [reflexivity |]. split; [cbn; lia |]. split; [reflexivity |].
  split; [reflexivity |]. split; [lra |]. split.
  - intros _. unfold item. cbn. lra.
  - intros k Hk. lia.
Defined.

(** X3.  [check_conditions] accepts a trace exactly when the lengths
    agree, the timestamps never decrease and none is earlier than
    [start_time].  A call raises one of the three validation errors
    exactly when [check_conditions] does, and then leaves the state
    untouched; after an accepted trace only the later errors remain
    possible. *)
Theorem validation_passes_iff {ext : Externals}
  (ts scores : list R) (start T : R) (s : state) :
  (check_conditions ts scores start = Ok tt
   <-> length ts = length scores
       /\ (forall i, (i + 1 < length ts)%nat ->
                     item ts i <= item ts (i + 1))
       /\ (forall i, (i < length ts)%nat -> start <= item ts i))
  /\ (check_conditions ts scores start = Ok tt
      <-> forall e, fst (plot_learning_curve ts scores start T s) = Raise e ->
                    late_error e)
  /\ (forall e, check_conditions ts scores start = Raise e ->
                ~ late_error e
                /\ plot_learning_curve ts scores start T s = (Raise e, s)).
Proof.
  split; [apply check_conditions_ok_iff |].
  pose proof (check_conditions_error_kind ts scores start) as Hv.
  split.
  - split.
    + intros H e. now apply plot_learning_curve_late.
    + intros H.
      destruct (check_conditions ts scores start) as [[] | e] eqn:Hc;
        [reflexivity |].
      exfalso. apply (Hv e eq_refl). apply H.
      now rewrite (validation_error_raised _ _ _ T s e Hc).
  - intros e He. split; [now apply Hv |].
    now apply validation_error_raised.
Qed.

(** ** The optional clear *)

Lemma after_clear_eq (s : state) :
  after_clear s
  = if clear_figure (self s)
    then match current (plt s) with
         | Some c => Pyplot (<[c := []]> (figures (plt s))) (Some c)
         | None => Pyplot (figures (plt s) ++ [[]])
                          (Some (length (figures (plt s))))
         end
    else plt s.
Proof.
  destruct s as [slf [F c] lg]. unfold after_clear. cbn [self plt].
  destruct (clear_figure slf); [destruct c |]; cbn; try reflexivity.
  now rewrite insert_end.
Qed.

Lemma after_clear_length (s : state) :
  (length (figures (plt s)) <= length (figures (after_clear s)))%nat.
Proof.
  rewrite after_clear_eq.
  destruct (clear_figure (self s)); [destruct (current (plt s)) |];
    cbn [figures]; rewrite ?length_insert, ?length_app; cbn; lia.
Qed.

(** ** An own figure that still has axes *)

(** X5.  When the plotter's own figure still has axes once the optional
    [plt.clf()] is done, a call on a valid trace (default transform)
    creates no figure and raises the [NameError] of the unbound local
    [fig] at line 141: the warning of the truncation is logged, the
    plotter is unchanged, and pyplot is changed by the clear alone. *)
Theorem own_figure_with_axes_raises {ext : Externals}
  (ts scores : list R) (start T : R) (s : state) :
  check_conditions ts scores start = Ok tt ->
  transform (self s) = None ->
  own_figure_blank s = false ->
  plot_learning_curve ts scores start T s
  = (Raise (NameError "fig"),
     State (self s) (after_clear s)
           (logger s ++ truncation_warning ts start T))
  /\ (clear_figure (self s) = false ->
      plt (snd (plot_learning_curve ts scores start T s)) = plt s)
  /\ self (snd (plot_learning_curve ts scores start T s)) = self s.
Proof.
  intros Hchk Htr Hb. split; [| split].
  - now apply own_figure_not_blank.
  - rewrite (own_figure_not_blank ts scores start T s Hchk Htr Hb).
    cbn [snd plt]. rewrite after_clear_eq.
    destruct (clear_figure (self s)); [| reflexivity].
    intros H. discriminate H.
  - rewrite (own_figure_not_blank ts scores start T s Hchk Htr Hb).
    cbn [snd self]. reflexivity.
Qed.

Lemma own_figure_with_axes_raises_witness :
  let s := __init__ "step" None None "cyan" true None false true true ∅
             (Pyplot [] None) [] in
  check_conditions [10] [1 / 2] 0 = Ok tt
  /\ plot_learning_curve [10] [1 / 2] 0 7200 s = (Raise (NameError "fig"), s).
Proof.
  intros s.
  assert (H : check_conditions [10] [1 / 2] 0 = Ok tt) by run_check.
  split; [exact H |].
  rewrite (proj1 (own_figure_with_axes_raises [10] [1 / 2] 0 7200 s H
                    eq_refl eq_refl)).
  unfold truncation_warning, retained_timestamps.
  cbn [List.filter]. float_eval. Rcompare. reflexivity.
Defined.

(** ** The keyword arguments after a call *)

Lemma connector_curve_kwargs (l : alc_label) (kw : gmap string pyval) :
  connector_kwargs (curve_kwargs l kw) = kwargs_after kw.
Proof.
  apply map_eq. intros k.
  unfold connector_kwargs, curve_kwargs, kwargs_after, setdefault.
  destruct (decide (k = "label")) as [-> |];
    [| destruct (decide (k = "marker")) as [-> |];
       [| destruct (decide (k = "linewidth")) as [-> |];
          [| destruct (decide (k = "linestyle")) as [-> |];
             [| destruct (decide (k = "markersize")) as [-> |]]]]].
  all: repeat case_match; simplify_map_eq; try reflexivity.
Qed.

Lemma kwargs_after_other (kw : gmap string pyval) (k : string) :
  k <> "label" -> k <> "marker" -> k <> "linewidth" -> k <> "linestyle" ->
  k <> "markersize" ->
  kwargs_after kw !! k = kw !! k.
Proof.
  intros. unfold kwargs_after. now simplify_map_eq.
Qed.

Lemma kwargs_after_idempotent (kw : gmap string pyval) :
  kwargs_after (kwargs_after kw) = kwargs_after kw.
Proof.
  apply map_eq. intros k. unfold kwargs_after.
  destruct (decide (k = "label")) as [-> |];
    [| destruct (decide (k = "marker")) as [-> |];
       [| destruct (decide (k = "linewidth")) as [-> |];
          [| destruct (decide (k = "linestyle")) as [-> |];
             [| destruct (decide (k = "markersize")) as [-> |]]]]].
  all: simplify_map_eq; try reflexivity.
Qed.

(** X8.  After a call that returns, [self.kwargs] has linestyle "--",
    linewidth 1, marker [None], the markersize it had (3 if it had none)
    and no label; every other key is as before.  A further call leaves
    such a dictionary as it is. *)
Theorem kwargs_after_call {ext : Externals}
  (ts scores : list R) (start T : R) (s : state) (c : method_choice) :
  check_conditions ts scores start = Ok tt ->
  transform (self s) = None ->
  choice_of (method (self s)) = Some c ->
  own_figure_blank s = true ->
  kwargs (self s) !! "drawstyle" = None ->
  matplotlib_accepts (self s) ->
  let kw := kwargs (self s) in
  let kw' := kwargs (self (snd (plot_learning_curve ts scores start T s))) in
  kw' = kwargs_after kw
  /\ kw' !! "linestyle" = Some (PyStr "--")
  /\ kw' !! "linewidth" = Some (PyInt 1)
  /\ kw' !! "marker" = Some PyNone
  /\ kw' !! "markersize" = Some (default (PyInt 3) (kw !! "markersize"))
  /\ kw' !! "label" = None
  /\ (forall k, k <> "label" -> k <> "marker" -> k <> "linewidth" ->
                k <> "linestyle" -> k <> "markersize" ->
                kw' !! k = kw !! k)
  /\ kwargs_after kw' = kw'.
Proof.
  intros Hchk Htr Hc Hb Hd Hmpl kw kw'.
  assert (E : kw' = kwargs_after kw).
  { unfold kw'.
    rewrite (plot_learning_curve_ok ts scores start T s c Hchk Htr Hc Hb Hd
             Hmpl).
    cbn [snd self kwargs with_kwargs]. apply connector_curve_kwargs. }
  rewrite E. split; [reflexivity |].
  unfold kwargs_after at 1 2 3 4 5.
  repeat (split; [now simplify_map_eq |]).
  split; [intros; now apply kwargs_after_other |].
  apply kwargs_after_idempotent.
Qed.

Lemma kwargs_after_call_witness :
  kwargs (self (snd (plot_learning_curve [] [] 0 7200
                       (__init__ "trapez" None None "cyan" true None true
                          true true
                          (<["markersize" := PyInt 7]>
                             (<["color" := PyStr "red"]> ∅))
                          (Pyplot [] None) []))))
  = <["linestyle" := PyStr "--"]>
      (<["linewidth" := PyInt 1]>
         (<["marker" := PyNone]>
            (<["markersize" := PyInt 7]> (<["color" := PyStr "red"]> ∅)))).
Proof.
  set (s := __init__ "trapez" None None "cyan" true None true true true
              (<["markersize" := PyInt 7]> (<["color" := PyStr "red"]> ∅))
              (Pyplot [] None) []).
  assert (Hd : kwargs (self s) !! "drawstyle" = None) by reflexivity.
  assert (Hm : matplotlib_accepts (self s)) by accepted.
  destruct (kwargs_after_call [] [] 0 7200 s
              _ eq_refl eq_refl choice_of_trapez eq_refl Hd Hm) as [E _].
  rewrite E. reflexivity.
Defined.

(** ** Which figures a call touches *)

(** X7.  A call that returns draws on a figure it has just created: the
    figure it returns did not exist before the call, is the last of
    pyplot's figures and is current afterwards.  [self.fig] and [self.ax]
    are unchanged.  Of the figures that existed, only the one that was
    current is touched, and only when [clear_figure] is set: it is left
    without axes. *)
Theorem call_draws_on_new_figure {ext : Externals}
  (ts scores : list R) (start T : R) (s : state) (c : method_choice) :
  check_conditions ts scores start = Ok tt ->
  transform (self s) = None ->
  choice_of (method (self s)) = Some c ->
  own_figure_blank s = true ->
  kwargs (self s) !! "drawstyle" = None ->
  matplotlib_accepts (self s) ->
  let r := plot_learning_curve ts scores start T s in
  exists alc f,
    fst r = Ok (alc, f)
    /\ (length (figures (plt s)) <= f)%nat
    /\ length (figures (plt (snd r))) = S f
    /\ current (plt (snd r)) = Some f
    /\ fig (self (snd r)) = fig (self s)
    /\ ax (self (snd r)) = ax (self s)
    /\ (forall i, (i < length (figures (plt s)))%nat ->
                  (clear_figure (self s) = true ->
                   current (plt s) <> Some i) ->
                  figures (plt (snd r)) !! i = figures (plt s) !! i)
    /\ (forall i, (i < length (figures (plt s)))%nat ->
                  clear_figure (self s) = true ->
                  current (plt s) = Some i ->
                  figures (plt (snd r)) !! i = Some []).
Proof.
  intros Hchk Htr Hc Hb Hd Hmpl r. unfold r.
  rewrite (plot_learning_curve_ok ts scores start T s c Hchk Htr Hc Hb Hd
             Hmpl).
  cbn [fst snd plt self figures current].
  pose proof (after_clear_length s) as Hlen.
  eexists _, _. split; [reflexivity |]. split; [exact Hlen |].
  split; [rewrite length_app; cbn; lia |]. split; [reflexivity |].
  split; [destruct (self s); reflexivity |].
  split; [destruct (self s); reflexivity |].
  split.
  - intros i Hi Hcur. rewrite lookup_app_l by lia.
    rewrite after_clear_eq.
    destruct (clear_figure (self s)); [| reflexivity].
    destruct (current (plt s)) as [k |] eqn:Ek; cbn [figures].
    + apply list_lookup_insert_ne. intros ->. now apply Hcur.
    + apply lookup_app_l. exact Hi.
  - intros i Hi Hclr Hcur. rewrite lookup_app_l by lia.
    rewrite after_clear_eq, Hclr, Hcur. cbn [figures].
    now apply list_lookup_insert_eq.
Qed.

Lemma call_draws_on_new_figure_witness :
  let s1 := snd (plot_learning_curve [] [] 0 7200 PlotAlc_default) in
  exists alc f,
    fst (plot_learning_curve [0] [1] 0 7200 s1) = Ok (alc, f)
    /\ (2 <= f)%nat.
Proof.
  intros s1.
  pose proof (default_call_ok PlotAlc_default eq_refl eq_refl eq_refl eq_refl
                default_accepted)
    as H1.
  cbv zeta in H1.
  assert (Hs : s1 = snd (plot_learning_curve [] [] 0 7200 PlotAlc_default))
    by reflexivity.
  rewrite H1 in Hs. cbn [snd] in Hs.
  assert (H : check_conditions [0] [1] 0 = Ok tt) by run_check.
  assert (Hs1 : transform (self s1) = None
                /\ choice_of (method (self s1))
                   = Some (MethodChoice "steps-post" (Some "post")
                             Modelled.auc_step)
                /\ own_figure_blank s1 = true
                /\ kwargs (self s1) !! "drawstyle" = None
                /\ length (figures (plt s1)) = 2%nat).
  { rewrite Hs. repeat split; reflexivity. }
  destruct Hs1 as (Ht & Hc & Hb & Hd & Hn).
  assert (Ha : matplotlib_accepts (self s1)).
  { rewrite Hs. cbn [self]. accepted. }
  destruct (call_draws_on_new_figure [0] [1] 0 7200 s1 _ H Ht Hc Hb Hd Ha)
    as (alc & f & Hr & Hle & _).
  exists alc, f. split; [exact Hr |]. rewrite Hn in Hle. exact Hle.
Defined.

(** ** "drawstyle" among the keyword arguments *)

(** X9.  When the keyword arguments given at construction have the key
    "drawstyle", a call that reaches the drawing raises a [TypeError] at
    line 169, where [drawstyle] is passed a second time.  By then the new
    figure is set up and the three defaults are written into
    [self.kwargs]; nothing is drawn. *)
Theorem drawstyle_keyword_raises {ext : Externals}
  (ts scores : list R) (start T : R) (s : state) (c : method_choice)
  (v : pyval) :
  check_conditions ts scores start = Ok tt ->
  transform (self s) = None ->
  choice_of (method (self s)) = Some c ->
  own_figure_blank s = true ->
  kwargs (self s) !! "drawstyle" = Some v ->
  let X := curve_X (default_transform T) ts start T in
  let Y := curve_Y ts scores start T in
  let F := figures (after_clear s) in
  plot_learning_curve ts scores start T s
  = (Raise (TypeErrorMultipleValues "drawstyle"),
     State (with_kwargs
              (curve_kwargs (label_of (self s) (auc_func c X Y))
                            (kwargs (self s)))
              (self s))
           (Pyplot
              (F ++ [[setup_ops (self s)
                        (XlabelDefault (py_int T) (py_int 60));
                      twin_ops (default_transform T) T]])
              (Some (length F)))
           (logger s ++ truncation_warning ts start T)).
Proof.
  intros Hchk Htr Hc Hb Hd X Y F.
  rewrite (plot_learning_curve_until_method ts scores start T s Hchk Htr Hb),
    Hc.
  fold X Y F. apply bind_raise. unfold draw_curve.
  erewrite (bind_ok _ _ _ _ _ (kwargs_setdefault_eq _ _ _ _ _)).
  erewrite (bind_ok _ _ _ _ _ (kwargs_setdefault_eq _ _ _ _ _)).
  erewrite (bind_ok _ _ _ _ _ (kwargs_setdefault_eq _ _ _ _ _)).
  unfold get_kwargs at 1. unfold bind at 1.
  cbn [self kwargs with_kwargs].
  fold (label_of (self s) (auc_func c X Y)).
  fold (curve_kwargs (label_of (self s) (auc_func c X Y)) (kwargs (self s))).
  rewrite curve_kwargs_drawstyle, Hd.
  unfold bind, raise. destruct (self s); reflexivity.
Qed.

Lemma drawstyle_keyword_raises_witness :
  let s := __init__ "step" None None "cyan" true None true true true
             (<["drawstyle" := PyStr "steps-pre"]> ∅) (Pyplot [] None) [] in
  fst (plot_learning_curve [] [] 0 7200 s)
  = Raise (TypeErrorMultipleValues "drawstyle").
Proof.
  intros s.
  assert (Hd : kwargs (self s) !! "drawstyle" = Some (PyStr "steps-pre"))
    by reflexivity.
  now rewrite (drawstyle_keyword_raises [] [] 0 7200 s _ (PyStr "steps-pre")
                 eq_refl eq_refl choice_of_step eq_refl Hd).
Defined.

(** ** Keyword arguments that matplotlib refuses *)

(** X16.  When matplotlib refuses what line 169 passes to [ax.plot] (the
    caller's keyword arguments with the three defaults, and the
    drawstyle), the call raises matplotlib's error there.  By then the
    new figure is set up and the three defaults are written into
    [self.kwargs]; nothing is drawn. *)
Theorem refused_keyword_raises {ext : Externals}
  (ts scores : list R) (start T : R) (s : state) (c : method_choice)
  (message : string) :
  check_conditions ts scores start = Ok tt ->
  transform (self s) = None ->
  choice_of (method (self s)) = Some c ->
  own_figure_blank s = true ->
  kwargs (self s) !! "drawstyle" = None ->
  let X := curve_X (default_transform T) ts start T in
  let Y := curve_Y ts scores start T in
  let F := figures (after_clear s) in
  let kw := curve_kwargs (label_of (self s) (auc_func c X Y))
                         (kwargs (self s)) in
  line2d_error (<["drawstyle" := PyStr (drawstyle c)]> kw) = Some message ->
  plot_learning_curve ts scores start T s
  = (Raise (MatplotlibError message),
     State (with_kwargs kw (self s))
           (Pyplot
              (F ++ [[setup_ops (self s)
                        (XlabelDefault (py_int T) (py_int 60));
                      twin_ops (default_transform T) T]])
              (Some (length F)))
           (logger s ++ truncation_warning ts start T)).
Proof.
  intros Hchk Htr Hc Hb Hd X Y F kw Hm.
  rewrite (plot_learning_curve_until_method ts scores start T s Hchk Htr Hb),
    Hc.
  fold X Y F. apply bind_raise. unfold draw_curve.
  erewrite (bind_ok _ _ _ _ _ (kwargs_setdefault_eq _ _ _ _ _)).
  erewrite (bind_ok _ _ _ _ _ (kwargs_setdefault_eq _ _ _ _ _)).
  erewrite (bind_ok _ _ _ _ _ (kwargs_setdefault_eq _ _ _ _ _)).
  unfold get_kwargs at 1. unfold bind at 1.
  cbn [self kwargs with_kwargs].
  fold (label_of (self s) (auc_func c X Y)).
  fold (curve_kwargs (label_of (self s) (auc_func c X Y)) (kwargs (self s))).
  fold kw. unfold kw at 1. rewrite curve_kwargs_drawstyle, Hd.
  apply bind_raise. unfold ax_plot. rewrite Hm.
  unfold raise. destruct (self s); reflexivity.
Qed.

Lemma refused_keyword_raises_witness :
  let s := __init__ "step" None None "cyan" true None true true true
             (<["foo" := PyInt 1]> ∅) (Pyplot [] None) [] in
  fst (plot_learning_curve [] [] 0 7200 s) = Raise (MatplotlibError "foo").
Proof.
  intros s.
  assert (Hd : kwargs (self s) !! "drawstyle" = None) by reflexivity.
  assert (Hm : line2d_error
                 (<["drawstyle" := PyStr "steps-post"]>
                    (curve_kwargs
                       (label_of (self s)
                          (Modelled.auc_step
                             (curve_X (default_transform 7200) [] 0 7200)
                             (curve_Y [] [] 0 7200)))
                       (kwargs (self s)))) = Some "foo")
    by (vm_compute; reflexivity).
  now rewrite (refused_keyword_raises [] [] 0 7200 s _ "foo"
                 eq_refl eq_refl choice_of_step eq_refl Hd Hm).
Defined.

(** ** What is drawn *)

Lemma but_last_snoc (l : list R) (a : R) : but_last (l ++ [a]) = l.
Proof.
  unfold but_last. rewrite length_app. cbn [length].
  replace (length l + 1 - 1)%nat with (length l) by lia.
  rewrite List.firstn_app, Nat.sub_diag, List.firstn_all. cbn.
  apply app_nil_r.
Qed.

Lemma last_two_snoc (l : list R) (a b : R) :
  last_two ((l ++ [a]) ++ [b]) = [a; b].
Proof.
  unfold last_two. rewrite <- app_assoc, length_app. cbn [app length].
  replace (length l + 2 - 2)%nat with (length l) by lia.
  rewrite List.skipn_app, Nat.sub_diag, List.skipn_all. reflexivity.
Qed.

Lemma item_last_snoc (l : list R) (a : R) : item_last (l ++ [a]) = a.
Proof. apply List.last_last. Qed.

(** X13.  What a call that returns puts on the first axes of the new
    figure, after the set-up: the curve through the origin and the kept
    observations, without the final point; when [fill_area] is set, the
    area under the whole curve, final point included; when
    [show_final_score] is set, the last score written at [X = 1]; the
    connector, a level segment from the last observation to [X = 1]; the
    legend. *)
Theorem drawn_curve {ext : Externals}
  (ts scores : list R) (start T : R) (s : state) (c : method_choice) :
  check_conditions ts scores start = Ok tt ->
  transform (self s) = None ->
  choice_of (method (self s)) = Some c ->
  own_figure_blank s = true ->
  kwargs (self s) !! "drawstyle" = None ->
  matplotlib_accepts (self s) ->
  let xs := List.map (fun t => transform_time (float_sub t start) T 60)
                     (retained_timestamps ts start T) in
  let ys := retained_scores ts scores start T in
  let x_last := List.last xs 0 in
  let y_last := List.last ys 0 in
  let alc := auc_func c ([0] ++ xs ++ [1]) ([0] ++ ys ++ [y_last]) in
  let kw := curve_kwargs (label_of (self s) alc) (kwargs (self s)) in
  let F := figures (after_clear s) in
  figures (plt (snd (plot_learning_curve ts scores start T s))) !! length F
  = Some
      [setup_ops (self s) (XlabelDefault (py_int T) (py_int 60))
       ++ [Plot ([0] ++ xs) ([0] ++ ys) (Some (drawstyle c)) kw]
       ++ (if fill_area (self s)
           then [FillBetween ([0] ++ xs ++ [1]) ([0] ++ ys ++ [y_last])
                   (area_color (self s)) (step c)]
           else [])
       ++ (if show_final_score (self s)
           then [Text 1 y_last y_last] else [])
       ++ [Plot [x_last; 1] [y_last; y_last] None
                (kwargs_after (kwargs (self s)));
           Legend];
       twin_ops (default_transform T) T].
Proof.
  intros Hchk Htr Hc Hb Hd Hmpl xs ys x_last y_last alc kw F.
  rewrite (plot_learning_curve_ok ts scores start T s c Hchk Htr Hc Hb Hd
             Hmpl).
  cbn [snd plt figures]. fold F. rewrite lookup_end. do 3 f_equal.
  unfold curve_X, curve_Y, default_transform. cbv zeta.
  unfold draw_ops. cbv zeta. rewrite connector_curve_kwargs.
  fold xs ys y_last alc kw.
  change ([0] ++ xs ++ [1]) with ((0 :: xs) ++ [1]).
  change ([0] ++ ys ++ [y_last]) with ((0 :: ys) ++ [y_last]).
  rewrite !but_last_snoc, !item_last_snoc.
  assert (HX : last_two ((0 :: xs) ++ [1]) = [x_last; 1]).
  { unfold x_last. destruct xs as [| x xs'] using List.rev_ind;
      [reflexivity |].
    rewrite List.last_last. apply (last_two_snoc (0 :: xs')). }
  assert (HY : last_two ((0 :: ys) ++ [y_last]) = [y_last; y_last]).
  { unfold y_last. destruct ys as [| y ys'] using List.rev_ind;
      [reflexivity |].
    rewrite List.last_last. apply (last_two_snoc (0 :: ys')). }
  rewrite HX, HY. reflexivity.
Qed.

Lemma drawn_curve_witness :
  check_conditions [10; 100; 9000] [1 / 10; 1 / 2; 9 / 10] 0 = Ok tt
  /\ exists setup kw kw' twin,
      figures (plt (snd (plot_learning_curve [10; 100; 9000]
                           [1 / 10; 1 / 2; 9 / 10] 0 7200 PlotAlc_default)))
        !! 1%nat
      = Some
          [setup
           ++ [Plot [0; Modelled.transform_time (float_sub 10 0) 7200 60;
                     Modelled.transform_time (float_sub 100 0) 7200 60]
                    [0; 1 / 10; 1 / 2] (Some "steps-post") kw;
               FillBetween
                 [0; Modelled.transform_time (float_sub 10 0) 7200 60;
                  Modelled.transform_time (float_sub 100 0) 7200 60; 1]
                 [0; 1 / 10; 1 / 2; 1 / 2] "cyan" (Some "post");
               Text 1 (1 / 2) (1 / 2);
               Plot [Modelled.transform_time (float_sub 100 0) 7200 60; 1]
                    [1 / 2; 1 / 2] None kw';
               Legend];
           twin].
Proof.
  assert (H : check_conditions [10; 100; 9000] [1 / 10; 1 / 2; 9 / 10] 0
              = Ok tt) by run_check.
  split; [exact H |].
  pose proof (drawn_curve [10; 100; 9000] [1 / 10; 1 / 2; 9 / 10] 0 7200
                PlotAlc_default _ H eq_refl choice_of_step eq_refl eq_refl
                ltac:(accepted))
    as Hd.
  assert (Ht : retained_timestamps [10; 100; 9000] 0 7200 = [10; 100])
    by (unfold retained_timestamps; cbn [List.filter]; float_eval; Rcompare;
        reflexivity).
  cbv zeta in Hd. unfold retained_scores in Hd. rewrite Ht in Hd.
  eexists _, _, _, _. exact Hd.
Defined.

(** ** A trace that is over the budget from its first observation *)

(** X12.  When the first timestamp of a valid trace is already over the
    budget, every observation is dropped: the warning names index 0 and
    the ALC returned is the one of the curve [X = [0; 1]], [Y = [0; 0]]. *)
Theorem trace_over_budget {ext : Externals}
  (t : R) (rest scores : list R) (start T : R) (s : state)
  (c : method_choice) :
  check_conditions (t :: rest) scores start = Ok tt ->
  float_add T start < t ->
  transform (self s) = None ->
  choice_of (method (self s)) = Some c ->
  own_figure_blank s = true ->
  kwargs (self s) !! "drawstyle" = None ->
  matplotlib_accepts (self s) ->
  let r := plot_learning_curve (t :: rest) scores start T s in
  retained_timestamps (t :: rest) start T = []
  /\ fst r = Ok (auc_func c [0; 1] [0; 0], length (figures (after_clear s)))
  /\ logger (snd r) = logger s ++ [0%nat].
Proof.
  intros Hchk Ht Htr Hc Hb Hd Hmpl r.
  pose proof (proj1 (check_conditions_ok_iff _ _ _) Hchk) as (_ & Hmono & _).
  assert (Hk : retained_timestamps (t :: rest) start T = []).
  { unfold retained_timestamps. apply filter_over_budget.
    constructor; [exact Ht |].
    eapply List.Forall_impl; [| exact (nondecreasing_head _ _ Hmono)].
    cbn. intros u Hu. lra. }
  split; [exact Hk |]. unfold r.
  rewrite (plot_learning_curve_ok (t :: rest) scores start T s c
             Hchk Htr Hc Hb Hd Hmpl).
  cbn [fst snd logger].
  unfold curve_X, curve_Y, retained_scores, truncation_warning.
  rewrite Hk. split; reflexivity.
Qed.

Lemma trace_over_budget_witness :
  check_conditions [8000; 9000] [1 / 2; 1] 0 = Ok tt
  /\ float_add 7200 0 < 8000
  /\ logger (snd (plot_learning_curve [8000; 9000] [1 / 2; 1] 0 7200
                    PlotAlc_default))
     = [0%nat].
Proof.
  assert (H : check_conditions [8000; 9000] [1 / 2; 1] 0 = Ok tt)
    by run_check.
  assert (Ht : float_add 7200 0 < 8000) by (float_eval; lra).
  split; [exact H |]. split; [exact Ht |].
  exact (proj2 (proj2 (trace_over_budget 8000 [9000] [1 / 2; 1] 0 7200
                         PlotAlc_default _ H Ht eq_refl choice_of_step
                         eq_refl eq_refl ltac:(accepted)))).
Defined.

(** ** The ticks of the second x-axis *)

Lemma py_int_IZR (n : Z) : py_int (IZR n) = n.
Proof.
  unfold py_int. destruct (Rle_dec 0 (IZR n)) as [H | H].
  - symmetry. apply Int_part_spec. lra.
  - rewrite <- opp_IZR. rewrite <- (Int_part_spec (IZR (- n)) (- n)); [lia |].
    lra.
Qed.

Lemma py_range_In (start stop step z : Z) :
  (0 < step)%Z ->
  In z (py_range start stop step)
  <-> exists k, (0 <= k)%Z /\ z = (start + step * k)%Z /\ (z < stop)%Z.
Proof.
  intros Hs. unfold py_range. rewrite List.in_map_iff.
  set (q := ((stop - start + step - 1) / step)%Z).
  assert (Hq : forall k, (k < q <-> start + step * k < stop)%Z).
  { intros k. unfold q. split; intros H.
    - assert (step * (k + 1) <= stop - start + step - 1)%Z; [| lia].
      etransitivity; [| apply (Z.mul_div_le _ step); lia].
      apply Z.mul_le_mono_nonneg_l; lia.
    - assert (k + 1 <= (stop - start + step - 1) / step)%Z; [| lia].
      apply Z.div_le_lower_bound; lia. }
  split.
  - intros (k & <- & Hk). apply List.in_seq in Hk.
    exists (Z.of_nat k). split; [lia |]. split; [reflexivity |].
    apply Hq. lia.
  - intros (k & Hk & -> & Hlt). exists (Z.to_nat k).
    rewrite Z2Nat.id by lia. split; [reflexivity |].
    apply List.in_seq. apply Hq in Hlt. lia.
Qed.

(** X11.  The second x-axis of a new figure is labelled with the seconds
    10, 60, 300, 600 and 1200, whatever the budget, followed by the
    multiples of 1800 from 1800 up to [int(time_budget)], and each label
    is placed at the transform of its value.  A budget under 1800 gives
    the five fixed labels alone. *)
Theorem second_axis_ticks {ext : Externals}
  (ts scores : list R) (start T : R) (s : state) (c : method_choice) :
  check_conditions ts scores start = Ok tt ->
  transform (self s) = None ->
  choice_of (method (self s)) = Some c ->
  own_figure_blank s = true ->
  kwargs (self s) !! "drawstyle" = None ->
  matplotlib_accepts (self s) ->
  let F := figures (after_clear s) in
  (exists ops,
      figures (plt (snd (plot_learning_curve ts scores start T s)))
        !! length F
      = Some [ops;
              [SetXticks (List.map (fun z => transform_time (IZR z) T 60)
                                   (ticks_of T));
               SetXticklabels (ticks_of T)]])
  /\ (forall z, In z (ticks_of T)
                <-> In z [10; 60; 300; 600; 1200]%Z
                    \/ exists k, (1 <= k)%Z /\ z = (1800 * k)%Z
                                 /\ (z <= py_int T)%Z)
  /\ ((py_int T < 1800)%Z -> ticks_of T = [10; 60; 300; 600; 1200]%Z).
Proof.
  intros Hchk Htr Hc Hb Hd Hmpl F. split; [| split].
  - rewrite (plot_learning_curve_ok ts scores start T s c Hchk Htr Hc Hb Hd
             Hmpl).
    cbn [snd plt figures]. fold F. rewrite lookup_end.
    eexists. unfold twin_ops, default_transform.
    rewrite List.map_map. reflexivity.
  - intros z. unfold ticks_of. rewrite List.in_app_iff.
    rewrite py_range_In by lia. split; (intros [H | H]; [left; exact H |]).
    + right. destruct H as (k & Hk & -> & Hlt).
      exists (k + 1)%Z. lia.
    + right. destruct H as (k & Hk & -> & Hle).
      exists (k - 1)%Z. lia.
  - intros Hlt. unfold ticks_of, py_range.
    assert (Hq : ((py_int T + 1 - 1800 + 1800 - 1) / 1800 < 1)%Z)
      by (apply Z.div_lt_upper_bound; lia).
    replace (Z.to_nat ((py_int T + 1 - 1800 + 1800 - 1) / 1800)) with 0%nat
      by lia.
    reflexivity.
Qed.

Lemma second_axis_ticks_witness :
  exists ops,
    figures (plt (snd (plot_learning_curve [] [] 0 7200 PlotAlc_default)))
      !! 1%nat
    = Some [ops;
            [SetXticks
               (List.map (fun z => Modelled.transform_time (IZR z) 7200 60)
                  [10; 60; 300; 600; 1200; 1800; 3600; 5400; 7200]%Z);
             SetXticklabels
               [10; 60; 300; 600; 1200; 1800; 3600; 5400; 7200]%Z]].
Proof.
  destruct (second_axis_ticks [] [] 0 7200 PlotAlc_default _ eq_refl eq_refl
              choice_of_step eq_refl eq_refl ltac:(accepted))
    as ((ops & H) & _).
  exists ops. refine (eq_trans H _).
  assert (Ht : ticks_of 7200
               = [10; 60; 300; 600; 1200; 1800; 3600; 5400; 7200]%Z).
  { unfold ticks_of. rewrite py_int_IZR. reflexivity. }
  rewrite Ht. reflexivity.
Defined.

(** ** Another figure is current *)

(** X14.  [plt.clf()] clears pyplot's current figure, which need not be
    the plotter's own.  When [clear_figure] is set, another figure is
    current and the own figure has axes, a call on a valid trace removes
    the axes of that other figure, leaves the own figure as it is and
    raises the [NameError] of the unbound local [fig]. *)
Theorem clear_hits_current_figure {ext : Externals}
  (ts scores : list R) (start T : R) (s : state)
  (own cur : nat) (axs : list (list ax_op)) :
  check_conditions ts scores start = Ok tt ->
  transform (self s) = None ->
  clear_figure (self s) = true ->
  fig (self s) = Some own ->
  current (plt s) = Some cur ->
  own <> cur ->
  figures (plt s) !! own = Some axs ->
  axs <> [] ->
  let r := plot_learning_curve ts scores start T s in
  fst r = Raise (NameError "fig")
  /\ figures (plt (snd r)) = <[cur := []]> (figures (plt s))
  /\ figures (plt (snd r)) !! own = Some axs
  /\ ((cur < length (figures (plt s)))%nat ->
      figures (plt (snd r)) !! cur = Some []).
Proof.
  intros Hchk Htr Hclr Hown Hcur Hne Hax Hnil r.
  assert (Hac : after_clear s
                = Pyplot (<[cur := []]> (figures (plt s))) (Some cur)).
  { now rewrite after_clear_eq, Hclr, Hcur. }
  assert (Hb : own_figure_blank s = false).
  { unfold own_figure_blank. rewrite Hown, Hac. cbn [figures].
    rewrite list_lookup_insert_ne by (intros E; now apply Hne).
    rewrite Hax. destruct axs; [contradiction | reflexivity]. }
  unfold r.
  rewrite (own_figure_not_blank ts scores start T s Hchk Htr Hb), Hac.
  cbn [fst snd plt figures].
  split; [reflexivity |]. split; [reflexivity |]. split.
  - rewrite list_lookup_insert_ne by (intros E; now apply Hne). exact Hax.
  - intros Hlt. now apply list_lookup_insert_eq.
Qed.

Lemma clear_hits_current_figure_witness :
  let a := PlotAlc_default in
  let b := __init__ "step" None None "cyan" true None true true true ∅
             (plt a) [] in
  let s := State (self a) (plt b) [] in
  figures (plt s) = [[[]]; [[]]]
  /\ fst (plot_learning_curve [] [] 0 7200 s) = Raise (NameError "fig")
  /\ figures (plt (snd (plot_learning_curve [] [] 0 7200 s))) = [[[]]; []].
Proof.
  intros a b s.
  assert (Hne : 0%nat <> 1%nat) by discriminate.
  assert (Hax : ([[]] : list (list ax_op)) <> []) by discriminate.
  destruct (clear_hits_current_figure [] [] 0 7200 s 0 1 [[]]
              eq_refl eq_refl eq_refl eq_refl eq_refl Hne eq_refl Hax)
    as (Hr & Hf & _).
  split; [reflexivity |]. split; [exact Hr |]. rewrite Hf. reflexivity.
Defined.

(** ** The keyword arguments of the curve *)

Lemma curve_kwargs_lookup (l : alc_label) (kw : gmap string pyval)
  (k : string) :
  curve_kwargs l kw !! k
  = if decide (k = "marker")
    then Some (default (PyStr "o") (kw !! "marker"))
    else if decide (k = "markersize")
    then Some (default (PyInt 3) (kw !! "markersize"))
    else if decide (k = "label")
    then Some (default (PyLabel l) (kw !! "label"))
    else kw !! k.
Proof.
  unfold curve_kwargs, setdefault.
  repeat case_decide; subst; repeat case_match; simplify_map_eq;
    try reflexivity; try congruence.
Qed.

(** X15.  The curve of a call that returns is drawn with the caller's
    marker, markersize and label where given, and otherwise with "o", 3
    and the ALC label, which carries the model name unless it is missing
    or empty; every other keyword argument is passed as given. *)
Theorem curve_keyword_defaults {ext : Externals}
  (ts scores : list R) (start T : R) (s : state) (c : method_choice) :
  check_conditions ts scores start = Ok tt ->
  transform (self s) = None ->
  choice_of (method (self s)) = Some c ->
  own_figure_blank s = true ->
  kwargs (self s) !! "drawstyle" = None ->
  matplotlib_accepts (self s) ->
  let kw := kwargs (self s) in
  let X := curve_X (default_transform T) ts start T in
  let Y := curve_Y ts scores start T in
  let alc := auc_func c X Y in
  let name := match model_name (self s) with
              | Some "" => None
              | other => other
              end in
  exists setup rest twin kw1,
    figures (plt (snd (plot_learning_curve ts scores start T s)))
      !! length (figures (after_clear s))
    = Some [setup
            ++ Plot (but_last X) (but_last Y) (Some (drawstyle c)) kw1
               :: rest;
            twin]
    /\ Forall (fun op => is_drawing op = false) setup
    /\ kw1 !! "marker" = Some (default (PyStr "o") (kw !! "marker"))
    /\ kw1 !! "markersize" = Some (default (PyInt 3) (kw !! "markersize"))
    /\ kw1 !! "label"
       = Some (default (PyLabel (AlcLabel name alc)) (kw !! "label"))
    /\ (forall k, k <> "marker" -> k <> "markersize" -> k <> "label" ->
                  kw1 !! k = kw !! k).
Proof.
  intros Hchk Htr Hc Hb Hd Hmpl kw X Y alc name.
  rewrite (plot_learning_curve_ok ts scores start T s c Hchk Htr Hc Hb Hd
             Hmpl).
  cbn [snd plt figures]. rewrite lookup_end.
  fold X Y alc. unfold draw_ops. cbv zeta.
  eexists _, _, _, _. split; [reflexivity |]. split.
  - unfold setup_ops. destruct (show_title (self s)); repeat constructor.
  - assert (El : label_of (self s) alc = AlcLabel name alc).
    { unfold label_of, name, truthy.
      destruct (model_name (self s)) as [[| a n] |]; reflexivity. }
    rewrite El. fold kw.
    repeat split; try (rewrite curve_kwargs_lookup; reflexivity).
    intros k H1 H2 H3. rewrite curve_kwargs_lookup.
    repeat case_decide; congruence.
Qed.

Lemma curve_keyword_defaults_witness :
  let s := __init__ "step" None None "cyan" true (Some "") true true true
             (<["marker" := PyStr "x"]> ∅) (Pyplot [] None) [] in
  exists setup rest twin kw1,
    figures (plt (snd (plot_learning_curve [] [] 0 7200 s))) !! 1%nat
    = Some [setup ++ Plot [0] [0] (Some "steps-post") kw1 :: rest; twin]
    /\ kw1 !! "marker" = Some (PyStr "x")
    /\ kw1 !! "markersize" = Some (PyInt 3)
    /\ kw1 !! "label"
       = Some (PyLabel (AlcLabel None (Modelled.auc_step [0; 1] [0; 0]))).
Proof.
  intros s.
  assert (Hd : kwargs (self s) !! "drawstyle" = None) by reflexivity.
  assert (Ha : matplotlib_accepts (self s)) by accepted.
  destruct (curve_keyword_defaults [] [] 0 7200 s _ eq_refl eq_refl
              choice_of_step eq_refl Hd Ha)
    as (setup & rest & twin & kw1 & Hf & _ & Hm & Hs & Hl & _).
  exists setup, rest, twin, kw1.
  split; [exact Hf |]. split; [exact Hm |]. split; [exact Hs | exact Hl].
Defined.
